(* ===== verification/_CoqProject ===== *)
-Q . S2P
Prelude.v
JsNumber.v
JsArray.v
Diseases.v
Filter.v
Badge.v
Selection.v
Page.v
Spec.v
