(* ===== verification/Prelude.v ===== *)
(** * A verification development of the pandemic timeline page

    The repository is one React page, [src/src/pages/Index.tsx]: a constant
    array [diseases] of eleven records and one function component [Index]
    with two [useState] cells, [selectedDisease : Disease | null] and
    [filterCentury : string] (["all"] or a century printed with
    [toString()]).  Every render derives

    - [getCentury year = Math.ceil(year / 100)];
    - [filteredDiseases]: all records when the filter is ["all"], else the
      records whose printed century is [===] to the filter string;
    - [centuries = Array.from(new Set(diseases.map(...))).sort()]: the
      distinct centuries, sorted by [sort()]'s default comparator, which
      compares the decimal strings;

    and shows a QR code of [window.location.href], one filter button per
    century plus "all" (each calling [setFilterCentury]), one card per
    filtered record (badge from [getSeverityColor] and [getSeverityLabel],
    description only for the selected record, [onClick] toggling the
    selection) and three severity counts over the whole array.  The
    components interact only through the state: the handlers write it, the
    next render reads it.

    ** Files, in dependency order

    - [Prelude] (this file): the scope [page_scope] (JavaScript [===] on
      strings), the tactic [elem_of_literal], the
      hint database [page], and the list lemmas shared by the components
      (filters and [NoDup] of projections, counting, strong sortedness,
      invariants of [rtc], and [forallZ], a range check by evaluation
      linear in the length of the range).
    - [JsNumber]: [math_ceil_div] ([Math.ceil(a / b)]) and
      [number_toString] ([Number.prototype.toString]) on integers, and
      [js_div], [js_tenth], [math_ceil_is] on binary64 floats; the order
      of printed numbers (Section [DigitOrder]): comparing the printed
      forms of two positive numbers compares the shorter one with the
      leading digits of the longer, proved on Stdlib's decimal digits
      ([Pos.to_uint]) for all numbers.  This
      file and [JsArray] model the JavaScript runtime the page calls, not
      code of the repository.
    - [JsArray]: [SortCompare] with no comparator ([sort_compare],
      [sort_le]) and its order properties; the class [ArraySort], what
      ECMAScript promises of [sort()] (a permutation sorted by
      [SortCompare]), with two instances (insertion sort, stdpp's merge
      sort); [set_from] for [Array.from(new Set(xs))].
    - [Diseases]: [Disease], the union [Severity] with [severity_tag], the
      dataset [diseases], and two named records used by the examples.
    - [Filter]: [getCentury], [filteredDiseases], [centuries] (against any
      [ArraySort]), in a Section over the array.
    - [Badge]: [getSeverityColor], [getSeverityLabel], [severityCount] and
      the panel figures [severityStats].
    - [Selection]: [isSelected] ([selectedDisease?.id === disease.id]),
      [toggleSelection] (the card handler) and [same_selection], the
      equality up to ids, with [Proper] instances for both functions.
    - [Page]: the component: [IndexState], the setter calls [Action] and
      [dispatch], the view ([FilterButton], [CardView], [StatPanel],
      [QrDialog], the header, statistics and footer texts, [View]) built
      by [render], the step relation [click] (a
      click on a rendered control runs the setter call its handler closed
      over) and [reachable] from [initialState]; the invariant [page_inv].
    - [Spec]: the spec's abstract contract (section 4.1: [BrowserState],
      [spec_selectRecord], [spec_setFilter], [spec_visibleRecords],
      [spec_distinctCenturies]), its operations [SpecOp] and labelled
      steps [spec_step], [spec_reachable]; the clicks labelled by the
      operation their control stands for ([click_op]: a card selects its
      key, a button sets the filter to its key); the partial abstraction
      [abs], undefined on a filter string that is neither ["all"] nor a
      printed century; and the refinement theorems, whose lifting to
      sequences of steps is the Prelude's [simulation_rtc].

    ** What the theorems show

    - the century buttons (C1, C16, C19, C23, C24): on the dataset
      every [sort()] implementation yields [14; 16; 19; 20; 21; 6], not
      ascending as the spec says (a finding); in general they are the
      distinct centuries in string order; between lengths a longer
      century [b] comes before a shorter [a] exactly when its leading
      digits are below [a] (this is what puts 6 last; a lemma shows the
      order is numeric when all centuries have the same number of
      digits); [getCentury y = c] exactly when [y] lies in century [c],
      and for every year in -100000..100000 it is the ceiling of the
      rounded binary64 quotient JavaScript computes;
    - refinement (C2-C5): in a state satisfying [page_inv], [abs] is
      defined; clicking a card performs [selectRecord] of its key and
      clicking a button [setFilter] of its key, each enabled; every
      enabled operation is performed by the control standing for it; the
      render shows the contract's visible records and selection (the
      button order being the exception above); the page's reachable
      states and the contract's correspond through [abs];
    - the state (C6-C11, C14): the reachable states are exactly those of
      [page_inv]; exactly one filter button is highlighted; with distinct
      ids at most one card is expanded, the expanded card is the selected
      record's, and the card keys are distinct; the page never shows an
      empty list; a selection hidden by a filter survives and reappears
      expanded (a gap in the spec);
    - the toggle and the selection (C12, C13, C15): clicking a card twice
      restores the selection only from [null] or from that card (the
      spec's "idempotence" claim is wrong otherwise, a finding); another
      card's click replaces it; the view depends on the stored record only
      through its id ([same_selection], with [Proper] instances);
    - liveness (C17, C18): from every reachable state any record can be
      selected, and the first render's state reached again, within two
      clicks;
    - the rendered controls (C20-C22, C25, C26): every card is well formed
      (a known badge, description and chevron agreeing with the
      highlight); the cards' animation delays, [index * 0.1] in binary64,
      increase strictly for every index below 100000; unprinted filter
      strings select nothing; a century button's handler sets a string
      that parses back to its key and is its label; the buttons' keys are
      distinct;
    - statistics and badges (C27-C29): the headings are the badge labels
      (in Russian, where the spec says "Critical"/"High"/"Moderate", a
      finding) and the counts sum to the length, for every array; unknown
      strings take the default branch, record severities never do.  On
      the dataset the counts are 6, 4 and 1, where the spec says 5
      critical (a finding, the evaluation [severityStats_dataset]).

    No claim is of kind termination: every function of the development
    is structurally recursive or not recursive, as the page's code has no
    loop of its own ([map], [filter] and [sort()] over finite arrays).

    ** Bounds and what is not modelled

    Years are integers ([Z]).  JavaScript divides in binary floating point;
    [JsNumber.js_div] is that division on Rocq's primitive binary64 floats,
    and [getCentury_ieee] checks by evaluation, with the linear range test
    [forallZ] of this file, that [Math.ceil(y / 100)] is the exact ceiling
    for every year in -100000..100000 (the page's years lie in 541..2019;
    the evaluation takes seconds).  [number_toString] prints plain decimals, as JavaScript
    does below 10^21 in absolute value.  Every number the page handles is
    below 3000 ([diseases_years_bounded]).  JavaScript compares strings by
    UTF-16 code units, the model by bytes; they agree on the ASCII digits
    and sign that the compared strings contain.  The order theorems of
    [SortCompare] hold for all positive numbers (no range is evaluated);
    the animation delays are checked by evaluation for indices below
    100000, far above the eleven cards.  No function needs fuel:
    all are structurally recursive.  Markup, CSS classes of the layout,
    icons, the QR image ([qrcode.react]), the dialog's open state (Radix
    UI), the printing of the animation delay into its CSS string and the
    UI kit ([Card], [Badge], [Separator], [Icon] of [@/components/ui],
    not in the repository's sources) are presentation delegated to
    libraries and are not modelled; [window.location.href] is the input [href] of
    [render].

    ** Plan for the next steps

    Done: every component above; the QR dialog's content and the static
    texts of the page; the cards' animation delays; the floating-point
    division of [getCentury] on the evaluated range; the [SortCompare]
    order of positive numbers in general.  Left: that division for all
    integers below 2^53 (through [SpecFloat]); the CSS string of the
    delay (JavaScript's shortest round-trip printing of doubles).  Not
    planned: React's batching (every handler calls one setter, so there
    is nothing to batch) and the dialog's open/close state (Radix UI's,
    not the page's). *)

From Stdlib Require Export ZArith String.
From stdpp Require Export base list sorting strings relations.

Declare Scope page_scope.
Delimit Scope page_scope with page.
Open Scope page_scope.

(** JavaScript [===] on strings and numbers: the boolean test of an
    equality decided by its [EqDecision] instance. *)
Notation "x === y" := (bool_decide (x = y)) (at level 70, no associativity) : page_scope.

Create HintDb page discriminated.

(** Membership in a list that evaluates to a literal. *)
Ltac elem_of_literal :=
  apply list_elem_of_In; vm_compute; repeat first [left; reflexivity | right].

Section ListFacts.
Context {A : Type}.

Lemma NoDup_fmap_filter {B} (g : A -> B) (P : A -> Prop) `{!forall x, Decision (P x)}
    (l : list A) :
  NoDup (g <$> l) -> NoDup (g <$> filter P l).
Proof.
  intros Hnd. eapply sublist_NoDup; [exact Hnd|].
  apply fmap_sublist, sublist_filter.
Qed.

(** In a list whose projection [g] has no duplicate, an element is
    determined by its projection. *)
Lemma NoDup_fmap_inj {B} (g : A -> B) (l : list A) (x y : A) :
  NoDup (g <$> l) -> x ∈ l -> y ∈ l -> g x = g y -> x = y.
Proof.
  induction l as [|z l IH]; simpl; [by rewrite elem_of_nil|].
  rewrite NoDup_cons, !elem_of_cons. intros [Hz Hnd] Hx Hy Hg.
  destruct Hx as [->|Hx], Hy as [->|Hy]; auto;
    exfalso; apply Hz; apply list_elem_of_fmap; eauto.
Qed.

(** If all elements selected by [P] share their projection, and the
    projection has no duplicate, [P] selects at most one element. *)
Lemma length_filter_le1 {B} (g : A -> B) (P : A -> Prop)
    `{!forall x, Decision (P x)} (l : list A) :
  NoDup (g <$> l) ->
  (forall x y, x ∈ l -> y ∈ l -> P x -> P y -> g x = g y) ->
  length (filter P l) <= 1.
Proof.
  intros Hnd Hsame.
  destruct (filter P l) as [|x [|y r]] eqn:Hf; simpl; [lia|lia|exfalso].
  assert (Hx : x ∈ filter P l) by (rewrite Hf; set_solver).
  assert (Hy : y ∈ filter P l) by (rewrite Hf; set_solver).
  apply list_elem_of_filter in Hx as [HPx Hx], Hy as [HPy Hy].
  assert (x = y) as <- by (eapply NoDup_fmap_inj; eauto).
  pose proof (NoDup_filter P l (NoDup_fmap_1 g l Hnd)) as Hndf.
  rewrite Hf in Hndf. apply NoDup_cons in Hndf as [Hxr _]. set_solver.
Qed.

(** Invariants of a transition relation hold on every reachable state. *)
Lemma rtc_invariant (R : relation A) (P : A -> Prop) (x y : A) :
  (forall a b, P a -> R a b -> P b) -> P x -> rtc R x y -> P y.
Proof. intros Hstep Hx Hrtc. induction Hrtc; eauto. Qed.
End ListFacts.

#[export] Hint Resolve NoDup_fmap_filter sublist_filter : page.

(** A simulation diagram: every step of [step1] from a state related to
    [c2] is matched by one step of [step2] that keeps the relation.  It
    lifts to sequences of steps, as in Leroy's [Simulation] lemma
    [simulation_star]. *)
Section Simulation.
Context {C1 C2 : Type} (step1 : relation C1) (step2 : relation C2) (R : C1 -> C2 -> Prop).
Hypothesis simulation :
  forall c1 c1' c2, step1 c1 c1' -> R c1 c2 -> exists c2', step2 c2 c2' /\ R c1' c2'.

Lemma simulation_rtc (c1 c1' c2 : _) :
  rtc step1 c1 c1' -> R c1 c2 -> exists c2', rtc step2 c2 c2' /\ R c1' c2'.
Proof.
  intros Hs. revert c2. induction Hs as [c|c c0 c1' Hstep _ IH]; intros c2 HR.
  - exists c2. split; [apply rtc_refl|done].
  - destruct (simulation _ _ _ Hstep HR) as (c3 & H23 & HR3).
    destruct (IH _ HR3) as (c4 & H34 & HR4).
    exists c4. split; [eapply rtc_l; eauto|done].
Qed.
End Simulation.

(** A range check linear in the length of the range ([seqZ] converts
    every index with [Z.of_nat], which is quadratic under [vm_compute]). *)
Fixpoint forall_range (f : Z -> bool) (lo : Z) (n : nat) : bool :=
  match n with
  | O => true
  | S n => f lo && forall_range f (Z.succ lo) n
  end.

Definition forallZ (f : Z -> bool) (lo n : Z) : bool := forall_range f lo (Z.to_nat n).

Lemma forall_range_spec (f : Z -> bool) (n : nat) (lo : Z) :
  forall_range f lo n = true -> forall z, (lo <= z < lo + Z.of_nat n)%Z -> f z = true.
Proof.
  revert lo. induction n as [|n IH]; intros lo Hall z Hz; simpl in *; [lia|].
  apply andb_prop in Hall as [Hlo Hall].
  destruct (decide (z = lo)) as [->|Hne]; [done|]. apply (IH (Z.succ lo)); [done|lia].
Qed.

Lemma forallZ_spec (f : Z -> bool) (lo n : Z) :
  forallZ f lo n = true -> forall z, (lo <= z < lo + n)%Z -> f z = true.
Proof.
  intros Hall z Hz. apply (forall_range_spec f (Z.to_nat n) lo Hall). lia.
Qed.

Lemma filter_none {A} (P : A -> Prop) `{!forall x, Decision (P x)} (l : list A) :
  (forall x, x ∈ l -> ~ P x) -> filter P l = [].
Proof.
  induction l as [|x l IH]; intros Hn; [done|].
  rewrite filter_cons, decide_False by set_solver. apply IH. set_solver.
Qed.

(** Strong sortedness transfers to any relation implied by [R] on pairs of
    distinct elements of a duplicate-free list. *)
Lemma StronglySorted_impl {A} (R R' : relation A) (l : list A) :
  (forall x y, x ∈ l -> y ∈ l -> x <> y -> R x y -> R' x y) ->
  NoDup l -> StronglySorted R l -> StronglySorted R' l.
Proof.
  intros Himp Hnd Hs. induction Hs as [|x l Hs IH Hall]; constructor.
  - apply NoDup_cons in Hnd as [_ Hnd]. apply IH; [|done]. set_solver.
  - apply NoDup_cons in Hnd as [Hx _]. rewrite Forall_forall in Hall |- *.
    intros y Hy. apply Himp; [set_solver|set_solver|set_solver|auto].
Qed.

Lemma filter_fmap_comm {A B} (P : B -> Prop) `{!forall x, Decision (P x)}
    (f : A -> B) (l : list A) :
  filter P (f <$> l) = f <$> filter (fun x => P (f x)) l.
Proof.
  induction l as [|x l IH]; [done|]. rewrite fmap_cons, !filter_cons.
  case_decide; by rewrite ?fmap_cons, IH.
Qed.

(** A member of a duplicate-free list is selected once by equality. *)
Lemma length_filter_eq_NoDup {A} `{!EqDecision A} (l : list A) (x : A) :
  NoDup l -> x ∈ l -> length (filter (fun y => y = x) l) = 1.
Proof.
  induction l as [|y l IH]; [set_solver|].
  rewrite NoDup_cons, elem_of_cons. intros [Hy Hnd] Hx. rewrite filter_cons.
  case_decide as Hyx; simpl.
  - subst. rewrite filter_none; [done|]. intros z Hz ->. done.
  - apply IH; [done|]. destruct Hx; [congruence|done].
Qed.

(** In a strongly sorted list, an element is related to every later one. *)
Lemma StronglySorted_lookup {A} (R : relation A) (l : list A) (i j : nat) (x y : A) :
  StronglySorted R l -> l !! i = Some x -> l !! j = Some y -> (i < j)%nat -> R x y.
Proof.
  intros Hs. revert i j. induction Hs as [|z l Hs IH Hall]; intros i j Hi Hj Hij;
    [done|].
  destruct i as [|i], j as [|j]; simpl in *; try lia.
  - injection Hi as <-. rewrite Forall_forall in Hall.
    apply Hall, list_elem_of_lookup_2 with j, Hj.
  - apply (IH i j); auto with lia.
Qed.

(** [x] occurs before [y] in [l]. *)
Definition precedes {A} (l : list A) (x y : A) : Prop :=
  exists i j, l !! i = Some x /\ l !! j = Some y /\ (i < j)%nat.

(** In a duplicate-free list strongly sorted by an antisymmetric [R], two
    distinct members are in the order [R] says. *)
Lemma precedes_sorted {A} (R : relation A) `{!AntiSymm (=) R} `{!Total R} (l : list A) (x y : A) :
  StronglySorted R l -> x ∈ l -> y ∈ l -> x <> y -> (precedes l x y <-> R x y).
Proof.
  intros Hs [i Hi]%list_elem_of_lookup [j Hj]%list_elem_of_lookup Hne.
  split.
  - intros (i' & j' & Hi' & Hj' & Hlt). by eapply StronglySorted_lookup.
  - intros Hxy. exists i, j. split_and!; [done|done|].
    destruct (Nat.lt_total i j) as [|[->|Hji]]; [done|congruence|].
    exfalso. apply Hne, (anti_symm R); [done|].
    eapply StronglySorted_lookup; eauto.
Qed.
