(* ===== verification/JsNumber.v ===== *)
(** The JavaScript number primitives used by [Index.tsx]: [Math.ceil] of a
    division (in [getCentury]) and [Number.prototype.toString] (in the
    filter test, the filter buttons' values and their labels).  Both are
    modelled on integers; [js_div] and [math_ceil_is] state the
    floating-point division and [Math.ceil] on Rocq's binary64 floats, with
    which [Filter.getCentury_ieee] checks the integer model.  Section
    [DigitOrder] proves how [String.compare] orders printed positive
    numbers, the fact behind the order of the century buttons. *)

From S2P Require Import Prelude.
From Stdlib Require Import Decimal DecimalString DecimalZ DecimalPos DecimalFacts Ascii PrimFloat Uint63.

Local Open Scope Z_scope.
Local Open Scope string_scope.

(** * Definitions *)

(** [Math.ceil(a / b)] for an integer [a] and a positive integer [b]:
    the ceiling is minus the floor of the negated quotient. *)
Definition math_ceil_div (a b : Z) : Z := - ((- a) / b).

(** [Number.prototype.toString()] on an integer: its decimal digits without
    leading zeros, after a ['-'] when it is negative; ["0"] for zero (and
    for JavaScript's [-0], which [Math.ceil] returns for [-99 .. -1]
    divided by 100). *)
Definition number_toString (z : Z) : string :=
  NilZero.string_of_int (Z.to_int z).

(** Reading a decimal integer back: the left inverse of [number_toString]
    (a proof device; the page itself never parses). *)
Definition parse_int (s : string) : option Z :=
  Z.of_int <$> NilZero.int_of_string s.

(** * IEEE-754 numbers

    JavaScript numbers are binary64 floats; Rocq's primitive [float] is
    that type, with [PrimFloat.div] its correctly rounded division.  An
    integer literal [z] with [|z| < 2^53] denotes the float [float_of_Z z]
    exactly. *)
Definition float_of_Z (z : Z) : float :=
  if Z.ltb z 0 then PrimFloat.opp (of_uint63 (Uint63.of_Z (Z.opp z)))
  else of_uint63 (Uint63.of_Z z).

(** [a / b] on two integer-valued numbers. *)
Definition js_div (a b : Z) : float := PrimFloat.div (float_of_Z a) (float_of_Z b).

(** The literal [0.1]: the binary64 nearest to a tenth, as JavaScript
    reads it. *)
Definition js_tenth : float := 0x1.999999999999ap-4%float.

(** [Math.ceil(x) = n] for an integer [n] (as a float: [-0] and [+0] both
    stand for [0]): [n] is the least integer not below [x], i.e.
    [n - 1 < x <= n], compared in floating point, which is exact on
    integers below 2^53. *)
Definition math_ceil_is (x : float) (n : Z) : bool :=
  PrimFloat.ltb (float_of_Z (Z.sub n 1)) x && PrimFloat.leb x (float_of_Z n).

(** * Ceiling division *)

Section CeilDiv.
Context (a b : Z) (Hb : 0 < b).

Lemma math_ceil_div_upper : a <= b * math_ceil_div a b.
Proof.
  unfold math_ceil_div.
  pose proof (Z.mul_div_le (- a) b Hb). lia.
Qed.

Lemma math_ceil_div_lower : b * (math_ceil_div a b - 1) < a.
Proof.
  unfold math_ceil_div.
  pose proof (Z.mul_succ_div_gt (- a) b Hb). lia.
Qed.

(** The ceiling is the only integer [c] with [b (c - 1) < a <= b c]. *)
Lemma math_ceil_div_unique (c : Z) :
  b * (c - 1) < a <= b * c -> math_ceil_div a b = c.
Proof.
  intros Hc. pose proof math_ceil_div_upper. pose proof math_ceil_div_lower.
  assert (math_ceil_div a b - 1 < c) by nia.
  assert (c - 1 < math_ceil_div a b) by nia. lia.
Qed.
End CeilDiv.

Lemma math_ceil_div_mono (a a' b : Z) :
  0 < b -> a <= a' -> math_ceil_div a b <= math_ceil_div a' b.
Proof.
  intros Hb Ha. unfold math_ceil_div.
  pose proof (Z.div_le_mono (- a') (- a) b Hb ltac:(lia)). lia.
Qed.

(** * Printing integers *)

Lemma to_int_nonnil (z : Z) :
  Z.to_int z <> Decimal.Pos Decimal.Nil /\ Z.to_int z <> Decimal.Neg Decimal.Nil.
Proof.
  destruct z as [|p|p]; simpl; split; try discriminate;
    intros [= H]; by apply (Unsigned.to_uint_nonnil p).
Qed.

(** Printing then parsing gives the integer back. *)
Lemma number_toString_roundtrip (z : Z) :
  parse_int (number_toString z) = Some z.
Proof.
  unfold parse_int, number_toString.
  destruct (to_int_nonnil z) as [H1 H2].
  rewrite (NilZero.isi _ H1 H2); simpl. by rewrite DecimalZ.of_to.
Qed.

Lemma number_toString_inj (z z' : Z) :
  number_toString z = number_toString z' -> z = z'.
Proof.
  intros H. apply (f_equal parse_int) in H.
  rewrite !number_toString_roundtrip in H. congruence.
Qed.

(** No printed number is the sentinel ["all"] of the filter. *)
Lemma number_toString_not_all (z : Z) : number_toString z <> "all".
Proof.
  intros H. pose proof (number_toString_roundtrip z) as R.
  rewrite H in R. discriminate R.
Qed.

(** * The order of printed numbers

    [number_toString] of a positive number prints [Pos.to_uint], its
    decimal digits with the most significant first and no leading zero.
    Comparing two such strings of the same length character by character
    compares the numbers, which is what [sort()] relies on when all the
    numbers it sorts have the same number of digits. *)

Section DigitOrder.
Local Open Scope N_scope.

Local Abbreviation uhd := DecimalPos.Unsigned.hd.
Local Abbreviation utl := DecimalPos.Unsigned.tl.
Local Abbreviation usize := DecimalPos.Unsigned.usize.

Lemma usize_cons (u : uint) : u <> Nil -> usize u = N.succ (usize (utl u)).
Proof. by destruct u. Qed.

Lemma uhd_lt (u : uint) : uhd u < 10.
Proof. destruct u; simpl; lia. Qed.

Lemma string_of_uint_cons (u : uint) :
  u <> Nil ->
  NilEmpty.string_of_uint u =
  String (ascii_of_N (48 + uhd u)) (NilEmpty.string_of_uint (utl u)).
Proof. by destruct u. Qed.

Lemma of_uint_cons (u : uint) :
  u <> Nil -> Pos.of_uint u = uhd u * 10 ^ usize (utl u) + Pos.of_uint (utl u).
Proof.
  intros Hu. rewrite !DecimalPos.Unsigned.of_uint_alt.
  destruct u as [|u|u|u|u|u|u|u|u|u|u]; [done|..];
    unfold rev at 1; simpl revapp; rewrite DecimalPos.Unsigned.of_lu_revapp;
    simpl; lia.
Qed.

Lemma of_uint_lt (u : uint) : Pos.of_uint u < 10 ^ usize u.
Proof.
  induction u; [simpl; lia|..];
    rewrite of_uint_cons by discriminate; cbn [usize utl DecimalPos.Unsigned.hd];
    rewrite N.pow_succ_r'; nia.
Qed.

Lemma N_compare_add_l (a x y : N) : N.compare (a + x) (a + y) = N.compare x y.
Proof.
  destruct (N.compare_spec x y) as [->|H|H];
    [apply N.compare_refl|apply N.compare_lt_iff; lia|apply N.compare_gt_iff; lia].
Qed.

Lemma compare_digits (a b x y p : N) :
  x < p -> y < p ->
  N.compare (a * p + x) (b * p + y) =
  match N.compare a b with Eq => N.compare x y | c => c end.
Proof.
  intros Hx Hy. destruct (N.compare_spec a b) as [->|H|H].
  - apply N_compare_add_l.
  - apply N.compare_lt_iff. nia.
  - apply N.compare_gt_iff. nia.
Qed.

Lemma of_uint_div_pow (h x p q : N) :
  x < 10 ^ (p + q) -> (h * 10 ^ (p + q) + x) / 10 ^ q = h * 10 ^ p + x / 10 ^ q.
Proof.
  intros _. rewrite N.pow_add_r, N.mul_assoc, N.div_add_l; [done|].
  apply N.pow_nonzero. lia.
Qed.

Lemma string_compare_uint_prefix (m : nat) (u v : uint) :
  usize u = N.of_nat m -> N.of_nat m <= usize v ->
  String.compare (NilEmpty.string_of_uint u) (NilEmpty.string_of_uint v) =
  match N.compare (Pos.of_uint u) (Pos.of_uint v / 10 ^ (usize v - N.of_nat m)) with
  | Eq => if N.eqb (usize v) (N.of_nat m) then Eq else Lt
  | c => c
  end.
Proof.
  revert u v. induction m as [|m IH]; intros u v Hu Hv.
  - destruct u; simpl in Hu; [|lia..]. rewrite N.sub_0_r.
    pose proof (of_uint_lt v). rewrite N.div_small by done.
    destruct v; simpl; [done|..]; rewrite (proj2 (N.eqb_neq _ _)) by lia; done.
  - assert (u <> Nil) by (intros ->; simpl in Hu; lia).
    assert (v <> Nil) by (intros ->; simpl in Hv; lia).
    rewrite usize_cons in Hu, Hv |- * by done.
    rewrite (string_of_uint_cons u), (string_of_uint_cons v), (of_uint_cons u), (of_uint_cons v)
      by done.
    set (n := usize (utl v)) in *.
    assert (usize (utl u) = N.of_nat m) as Hu' by lia. rewrite Hu'.
    replace (N.succ n - N.of_nat (S m)) with (n - N.of_nat m) by lia.
    replace n with (N.of_nat m + (n - N.of_nat m)) at 1 by lia.
    rewrite of_uint_div_pow
      by (replace (N.of_nat m + (n - N.of_nat m)) with n by lia; apply of_uint_lt).
    rewrite compare_digits; [|rewrite <- Hu'; apply of_uint_lt|].
    2:{ apply N.Div0.div_lt_upper_bound.
        rewrite <- N.pow_add_r. replace (n - N.of_nat m + N.of_nat m) with n by lia.
        apply of_uint_lt. }
    cbn [String.compare]. unfold Ascii.compare.
    rewrite !N_ascii_embedding by (pose proof (uhd_lt u); pose proof (uhd_lt v); lia).
    rewrite N_compare_add_l.
    destruct (N.compare (uhd u) (uhd v)); [|done|done].
    rewrite IH by lia.
    replace (N.succ n =? N.of_nat (S m)) with (n =? N.of_nat m); [done|].
    apply eq_iff_eq_true. rewrite !N.eqb_eq. lia.
Qed.

Lemma usize_nzhead (d : uint) : usize (nzhead d) <= usize d.
Proof. induction d; simpl; lia. Qed.

Lemma to_uint_hd (p : positive) : uhd (Pos.to_uint p) <> 0.
Proof.
  pose proof (DecimalPos.Unsigned.of_to p) as Hp.
  pose proof (DecimalPos.Unsigned.to_of (Pos.to_uint p)) as Hn.
  rewrite Hp in Hn. change (N.to_uint (Npos p)) with (Pos.to_uint p) in Hn.
  destruct (Pos.to_uint p) as [|u|u|u|u|u|u|u|u|u|u]; simpl; try lia;
    [discriminate|].
  simpl in Hp. unfold unorm in Hn. simpl in Hn.
  pose proof (usize_nzhead u) as Hs.
  destruct (nzhead u) eqn:Ez; try discriminate.
  - injection Hn as ->. discriminate.
  - injection Hn as ->. simpl in Hs. lia.
Qed.

Lemma to_uint_bounds (p : positive) :
  10 ^ usize (utl (Pos.to_uint p)) <= Npos p < 10 ^ N.succ (usize (utl (Pos.to_uint p))).
Proof.
  pose proof (DecimalPos.Unsigned.to_uint_nonnil p) as Hnil.
  rewrite <- (DecimalPos.Unsigned.of_to p), <- usize_cons by done.
  split; [|apply of_uint_lt].
  rewrite of_uint_cons by done. pose proof (to_uint_hd p). nia.
Qed.

Local Open Scope Z_scope.

Lemma number_toString_pos (p : positive) :
  number_toString (Zpos p) = NilEmpty.string_of_uint (Pos.to_uint p).
Proof.
  unfold number_toString, NilZero.string_of_int, NilZero.string_of_uint. simpl.
  pose proof (DecimalPos.Unsigned.to_uint_nonnil p).
  by destruct (Pos.to_uint p).
Qed.

Lemma to_uint_digits (p : positive) (k : Z) :
  0 <= k -> 10 ^ k <= Zpos p < 10 ^ (k + 1) ->
  usize (Pos.to_uint p) = N.succ (Z.to_N k).
Proof.
  intros Hk Hb. pose proof (DecimalPos.Unsigned.to_uint_nonnil p) as Hnil.
  rewrite usize_cons by done. f_equal.
  destruct (to_uint_bounds p) as [Hlo Hhi].
  set (m := usize (utl (Pos.to_uint p))) in *.
  apply N2Z.inj_le in Hlo. apply N2Z.inj_lt in Hhi.
  rewrite N2Z.inj_pow, N2Z.inj_succ in Hhi. rewrite N2Z.inj_pow in Hlo. simpl in Hlo, Hhi.
  assert (Z.of_N m = k); [|lia].
  destruct (Z.lt_trichotomy (Z.of_N m) k) as [Hlt|[Heq|Hgt]]; [|done|].
  - pose proof (Z.pow_le_mono_r 10 (Z.succ (Z.of_N m)) k). lia.
  - pose proof (Z.pow_le_mono_r 10 (k + 1) (Z.of_N m)). lia.
Qed.

(** Comparing the printed forms of a positive number [a] of [j + 1]
    digits and one [b] of [k + 1 >= j + 1] digits compares [a] with the
    first [j + 1] digits of [b], a proper prefix coming first. *)
Lemma number_toString_compare_digits (a b j k : Z) :
  0 <= j <= k -> 10 ^ j <= a < 10 ^ (j + 1) -> 10 ^ k <= b < 10 ^ (k + 1) ->
  String.compare (number_toString a) (number_toString b) =
  match Z.compare a (b / 10 ^ (k - j)) with
  | Eq => if Z.eqb k j then Eq else Lt
  | c => c
  end.
Proof.
  intros Hjk Ha Hb.
  pose proof (Z.pow_pos_nonneg 10 j ltac:(lia) ltac:(lia)).
  pose proof (Z.pow_pos_nonneg 10 k ltac:(lia) ltac:(lia)).
  destruct a as [|pa|pa], b as [|pb|pb]; try lia.
  rewrite !number_toString_pos.
  rewrite (string_compare_uint_prefix (N.to_nat (N.succ (Z.to_N j))))
    by (rewrite ?Nnat.N2Nat.id, ?(to_uint_digits pa j), ?(to_uint_digits pb k) by (done || lia); lia).
  rewrite Nnat.N2Nat.id, (to_uint_digits pb k), !DecimalPos.Unsigned.of_to
    by (done || lia).
  replace (N.succ (Z.to_N k) - N.succ (Z.to_N j))%N with (Z.to_N (k - j)) by lia.
  replace (N.succ (Z.to_N k) =? N.succ (Z.to_N j))%N with (Z.eqb k j)
    by (apply eq_iff_eq_true; rewrite N.eqb_eq, Z.eqb_eq; lia).
  rewrite <- N2Z.inj_compare, N2Z.inj_div, N2Z.inj_pow, Z2N.id by lia. done.
Qed.

(** [number_toString] preserves the order of positive numbers with the
    same number of digits. *)
Lemma number_toString_compare (a b k : Z) :
  0 <= k -> 10 ^ k <= a < 10 ^ (k + 1) -> 10 ^ k <= b < 10 ^ (k + 1) ->
  String.compare (number_toString a) (number_toString b) = Z.compare a b.
Proof.
  intros Hk Ha Hb. rewrite (number_toString_compare_digits a b k k) by lia.
  rewrite Z.sub_diag, Z.pow_0_r, Z.div_1_r, Z.eqb_refl.
  by destruct (Z.compare a b).
Qed.
End DigitOrder.

#[export] Hint Resolve number_toString_inj number_toString_not_all : page.
