(* ===== verification/JsArray.v ===== *)
(** The JavaScript array primitives behind the century buttons of
    [Index.tsx] line 184, [Array.from(new Set(xs)).sort()]:
    - [SortCompare] with no comparator, which orders numbers by their
      printed strings, compared code unit by code unit: the numeric order
      on numbers of the same length, and the order of the leading digits
      between lengths;
    - the interface [ArraySort] of what ECMAScript promises of
      [Array.prototype.sort()] (a permutation of the array, sorted by
      [SortCompare]) and two implementations of it;
    - [set_from], the array of the distinct elements of [xs] in first
      insertion order. *)

From S2P Require Import Prelude JsNumber.

Local Open Scope Z_scope.

(** * The default comparator *)

(** [IsLessThan(x, y)] on two strings: lexicographic on characters, a
    proper prefix being smaller. *)
Definition js_string_lt (x y : string) : bool := String.ltb x y.

(** [SortCompare(x, y)] when the comparator is [undefined]: both values
    are converted with [ToString] and compared as strings. *)
Definition sort_compare (x y : Z) : Z :=
  let xs := number_toString x in
  let ys := number_toString y in
  if js_string_lt xs ys then -1
  else if js_string_lt ys xs then 1
  else 0.

(** [x] may stay before [y] in the sorted array. *)
Definition sort_le (x y : Z) : Prop := sort_compare x y <= 0.

#[export] Instance sort_le_dec : RelDecision sort_le.
Proof. intros x y. unfold sort_le. apply _. Defined.

(** * [SortCompare] is a total order on integers *)

Lemma string_compare_lt_trans (a b c : string) :
  String.compare a b = Lt -> String.compare b c = Lt -> String.compare a c = Lt.
Proof.
  revert b c; induction a as [|ca a IH]; intros [|cb b] [|cc c]; simpl;
    try congruence.
  unfold Ascii.compare.
  destruct (N.compare_spec (Ascii.N_of_ascii ca) (Ascii.N_of_ascii cb)),
    (N.compare_spec (Ascii.N_of_ascii cb) (Ascii.N_of_ascii cc)),
    (N.compare_spec (Ascii.N_of_ascii ca) (Ascii.N_of_ascii cc));
    intros; try lia; try congruence; eauto.
Qed.

Lemma string_compare_refl (a : string) : String.compare a a = Eq.
Proof.
  induction a as [|c a IH]; simpl; [done|].
  by rewrite IH; unfold Ascii.compare; rewrite N.compare_refl.
Qed.

(** [SortCompare] never answers "less" in both directions, and answers
    "equal" only on equal numbers. *)
Lemma sort_le_iff (x y : Z) :
  sort_le x y <-> String.compare (number_toString x) (number_toString y) <> Gt.
Proof.
  unfold sort_le, sort_compare, js_string_lt, String.ltb.
  rewrite (String.compare_antisym (number_toString y)).
  destruct (String.compare (number_toString x) (number_toString y));
    simpl; split; intros; (lia || congruence).
Qed.

Lemma string_compare_not_gt (a b : string) :
  String.compare a b <> Gt -> String.compare a b = Lt \/ a = b.
Proof.
  destruct (String.compare a b) eqn:E; intros H;
    [right; by apply String.compare_eq_iff | by left | done].
Qed.

#[export] Instance sort_le_trans : Transitive sort_le.
Proof.
  intros x y z. rewrite !sort_le_iff.
  intros [Hxy|<-%number_toString_inj]%string_compare_not_gt
    [Hyz|<-%number_toString_inj]%string_compare_not_gt;
    rewrite ?string_compare_refl; try congruence.
  by rewrite (string_compare_lt_trans _ _ _ Hxy Hyz).
Qed.

#[export] Instance sort_le_total : Total sort_le.
Proof.
  intros x y. rewrite !sort_le_iff, (String.compare_antisym (number_toString y)).
  destruct (String.compare (number_toString x) (number_toString y)); simpl;
    auto; congruence.
Qed.

#[export] Instance sort_le_antisymm : AntiSymm (=) sort_le.
Proof.
  intros x y. rewrite !sort_le_iff, (String.compare_antisym (number_toString y)).
  destruct (String.compare (number_toString x) (number_toString y)) eqn:E;
    simpl; try congruence.
  intros _ _. by apply number_toString_inj, String.compare_eq_iff.
Qed.

(** [SortCompare] answers "equal" only on equal numbers. *)
Lemma sort_compare_lt (x y : Z) : sort_le x y -> x <> y -> sort_compare x y = -1.
Proof.
  unfold sort_le, sort_compare, js_string_lt, String.ltb.
  rewrite (String.compare_antisym (number_toString y)).
  destruct (String.compare (number_toString x) (number_toString y)) eqn:E;
    simpl; try lia.
  intros _ Hne. exfalso. by apply Hne, number_toString_inj, String.compare_eq_iff.
Qed.

(** * [Array.prototype.sort()] *)

(** What ECMAScript promises of [sort()] with no comparator: the result is
    a permutation of the array, sorted by [SortCompare].  The algorithm is
    left to the engine; clients are proved against this interface. *)
Class ArraySort := {
  array_sort : list Z -> list Z;
  array_sort_permutation l : array_sort l ≡ₚ l;
  array_sort_sorted l : Sorted sort_le (array_sort l)
}.

(** An engine's sort: insertion sort, inserting each element after the
    elements it does not precede. *)
Fixpoint sort_insert (x : Z) (l : list Z) : list Z :=
  match l with
  | [] => [x]
  | y :: l' => if decide (sort_le x y) then x :: y :: l' else y :: sort_insert x l'
  end.

Definition insertion_sort (l : list Z) : list Z := foldr sort_insert [] l.

Lemma sort_insert_permutation x l : sort_insert x l ≡ₚ x :: l.
Proof.
  induction l as [|y l IH]; simpl; [done|].
  case_decide; [done|]. rewrite IH. apply Permutation_swap.
Qed.

Lemma sort_insert_sorted x l : Sorted sort_le l -> Sorted sort_le (sort_insert x l).
Proof.
  induction 1 as [|y l Hl IH Hhd]; simpl; [by repeat constructor|].
  case_decide as Hxy; [by repeat constructor|].
  assert (Hyx : sort_le y x) by (destruct (total sort_le x y); tauto).
  constructor; [done|].
  destruct Hhd as [|z l' Hyz]; simpl; [by repeat constructor|].
  simpl in IH. case_decide; by constructor.
Qed.

#[export] Program Instance insertion_array_sort : ArraySort :=
  {| array_sort := insertion_sort |}.
Next Obligation.
  intros l. induction l as [|x l IH]; simpl; [done|].
  by rewrite sort_insert_permutation, IH.
Qed.
Next Obligation.
  intros l. induction l; simpl; [constructor|]. by apply sort_insert_sorted.
Qed.

(** Another engine's sort: stdpp's bottom-up merge sort (V8 and
    SpiderMonkey use merge sorts). *)
Program Definition merge_array_sort : ArraySort :=
  {| array_sort := merge_sort sort_le |}.
Next Obligation. intros l. apply merge_sort_Permutation. Qed.
Next Obligation. intros l. apply Sorted_merge_sort, _. Qed.

(** * [Array.from(new Set(xs))] *)

Section SetFrom.
Context {A : Type} `{!EqDecision A}.

(** [Set.prototype.add]: appends a value not yet in the set (for
    integers, SameValueZero is equality). *)
Definition set_add (acc : list A) (x : A) : list A :=
  if decide (x ∈ acc) then acc else acc ++ [x].

(** The set built from [xs], listed in insertion order. *)
Definition set_from (xs : list A) : list A := foldl set_add [] xs.

Lemma set_add_foldl_NoDup acc xs :
  NoDup acc -> NoDup (foldl set_add acc xs).
Proof.
  revert acc; induction xs as [|x xs IH]; intros acc Hacc; simpl; [done|].
  apply IH. unfold set_add. case_decide; [done|].
  apply NoDup_app; repeat split; [done| |apply NoDup_singleton]. set_solver.
Qed.

Lemma elem_of_set_add_foldl acc xs y :
  y ∈ foldl set_add acc xs <-> y ∈ acc \/ y ∈ xs.
Proof.
  revert acc; induction xs as [|x xs IH]; intros acc; simpl;
    [set_solver|].
  rewrite IH. unfold set_add. case_decide; set_solver.
Qed.

Lemma set_add_foldl_id acc xs :
  NoDup (acc ++ xs) -> foldl set_add acc xs = acc ++ xs.
Proof.
  revert acc; induction xs as [|x xs IH]; intros acc Hnd; simpl;
    [by rewrite app_nil_r|].
  unfold set_add. rewrite decide_False.
  - rewrite IH, <- app_assoc; [done|]. by rewrite <- app_assoc.
  - apply NoDup_app in Hnd as (_ & Hdis & _). intros Hx.
    apply (Hdis x Hx). set_solver.
Qed.
End SetFrom.

(** * Properties of the default sort *)

(** Every implementation of [sort()] gives the same array: the
    permutation sorted by [SortCompare] is unique, because [SortCompare]
    answers "equal" only on equal numbers. *)
Theorem array_sort_unique (S1 S2 : ArraySort) (l : list Z) :
  @array_sort S1 l = @array_sort S2 l.
Proof.
  apply (Sorted_unique sort_le); try apply array_sort_sorted.
  by rewrite !array_sort_permutation.
Qed.

(** Any permutation of [l] sorted by [SortCompare] is [sort()]'s result. *)
Lemma array_sort_characterised `{!ArraySort} (l l' : list Z) :
  Sorted sort_le l' -> l' ≡ₚ l -> array_sort l = l'.
Proof.
  intros Hs Hp. apply (Sorted_unique sort_le); auto using array_sort_sorted.
  by rewrite array_sort_permutation.
Qed.

(** On positive numbers with the same number of digits [SortCompare] is
    the numeric order. *)
Lemma sort_compare_same_digits (a b k : Z) :
  0 <= k -> 10 ^ k <= a < 10 ^ (k + 1) -> 10 ^ k <= b < 10 ^ (k + 1) ->
  (sort_compare a b = -1 <-> a < b).
Proof.
  intros Hk Ha Hb. unfold sort_compare, js_string_lt, String.ltb.
  rewrite (String.compare_antisym (number_toString b)),
    (number_toString_compare a b k) by done.
  destruct (Z.compare_spec a b); simpl; lia.
Qed.

(** A number [a] of [j + 1] digits and a longer one [b] of [k + 1]
    digits: [b] sorts first exactly when its first [j + 1] digits are
    below [a] (when they equal [a], [a] is a proper prefix and comes
    first). *)
Lemma sort_compare_fewer_digits (a b j k : Z) :
  0 <= j < k -> 10 ^ j <= a < 10 ^ (j + 1) -> 10 ^ k <= b < 10 ^ (k + 1) ->
  (sort_compare b a = -1 <-> b / 10 ^ (k - j) < a).
Proof.
  intros Hjk Ha Hb. unfold sort_compare, js_string_lt, String.ltb.
  rewrite (String.compare_antisym (number_toString b)),
    (number_toString_compare_digits a b j k), (proj2 (Z.eqb_neq k j)) by lia.
  destruct (Z.compare_spec a (b / 10 ^ (k - j))); simpl; lia.
Qed.

(** [Array.from(new Set(xs))] lists each element of [xs] once. *)
Theorem set_from_spec `{!EqDecision A} (xs : list A) :
  NoDup (set_from xs) /\ (forall y, y ∈ set_from xs <-> y ∈ xs).
Proof.
  split; [apply set_add_foldl_NoDup, NoDup_nil_2|].
  intros y. unfold set_from. rewrite elem_of_set_add_foldl. set_solver.
Qed.

(** On an array without duplicates the set lists it in the same order. *)
Lemma set_from_NoDup_id `{!EqDecision A} (xs : list A) :
  NoDup xs -> set_from xs = xs.
Proof. intros Hnd. by apply set_add_foldl_id. Qed.
