(* ===== verification/Diseases.v ===== *)
(** The data of [Index.tsx]: the interface [Disease] (lines 9-19), its
    severity union ["critical" | "high" | "moderate"] as the inductive
    [Severity], and the constant array [diseases] (lines 21-143), copied
    field for field.  Strings are UTF-8 byte strings. *)

From S2P Require Import Prelude.

Local Open Scope Z_scope.
Local Open Scope string_scope.

(** * Types *)

(** The string-literal union of the field [severity]. *)
Inductive Severity := critical | high | moderate.

#[export] Instance Severity_eq_dec : EqDecision Severity.
Proof. solve_decision. Defined.

(** The string each member of the union is. *)
Definition severity_tag (s : Severity) : string :=
  match s with
  | critical => "critical"
  | high => "high"
  | moderate => "moderate"
  end.

(** [interface Disease]; [year : number] holds integers. *)
Record Disease := {
  id : string;
  name : string;
  year : Z;
  period : string;
  deaths : string;
  affected : string;
  description : string;
  region : string;
  severity : Severity
}.

#[export] Instance Disease_eq_dec : EqDecision Disease.
Proof. solve_decision. Defined.

(** * The dataset *)

Definition diseases : list Disease := [
  {| id := "1";
     name := "Чума Юстиниана";
     year := 541;
     period := "541-549 гг.";
     deaths := "25-100 млн";
     affected := "Византийская империя";
     description := "Первая зарегистрированная пандемия чумы. Уничтожила до половины населения Византии и значительно ослабила империю.";
     region := "Средиземноморье, Европа, Азия";
     severity := critical |};
  {| id := "2";
     name := "Чёрная смерть";
     year := 1347;
     period := "1347-1353 гг.";
     deaths := "75-200 млн";
     affected := "Европа, Азия, Африка";
     description := "Самая разрушительная пандемия в истории человечества. Погибло от 30% до 60% населения Европы.";
     region := "Евразия, Северная Африка";
     severity := critical |};
  {| id := "3";
     name := "Оспа";
     year := 1520;
     period := "1520-1980 гг.";
     deaths := "300-500 млн";
     affected := "Весь мир";
     description := "Вирусное заболевание, которое опустошало человечество веками. Ликвидировано в 1980 году благодаря вакцинации.";
     region := "Весь мир";
     severity := critical |};
  {| id := "4";
     name := "Холера";
     year := 1817;
     period := "1817-настоящее время";
     deaths := "40+ млн";
     affected := "Весь мир";
     description := "Семь пандемий холеры. Остается проблемой в развивающихся странах с плохой санитарией.";
     region := "Индия, Азия, Африка, Европа";
     severity := high |};
  {| id := "5";
     name := "Испанский грипп";
     year := 1918;
     period := "1918-1920 гг.";
     deaths := "50-100 млн";
     affected := "500 млн";
     description := "Самая смертоносная пандемия гриппа в истории. Заразила треть населения планеты.";
     region := "Весь мир";
     severity := critical |};
  {| id := "6";
     name := "Азиатский грипп";
     year := 1957;
     period := "1957-1958 гг.";
     deaths := "1-2 млн";
     affected := "Весь мир";
     description := "Пандемия гриппа H2N2, начавшаяся в Китае и быстро распространившаяся по всему миру.";
     region := "Весь мир";
     severity := high |};
  {| id := "7";
     name := "ВИЧ/СПИД";
     year := 1981;
     period := "1981-настоящее время";
     deaths := "40+ млн";
     affected := "85+ млн";
     description := "Глобальная пандемия, вызванная вирусом иммунодефицита человека. Остается серьезной проблемой здравоохранения.";
     region := "Весь мир";
     severity := critical |};
  {| id := "8";
     name := "Атипичная пневмония (SARS)";
     year := 2002;
     period := "2002-2003 гг.";
     deaths := "774";
     affected := "8,098";
     description := "Первая серьезная и легко передающаяся болезнь XXI века. Была успешно локализована.";
     region := "Китай, Азия";
     severity := moderate |};
  {| id := "9";
     name := "Свиной грипп (H1N1)";
     year := 2009;
     period := "2009-2010 гг.";
     deaths := "150-575 тыс";
     affected := "700 млн - 1.4 млрд";
     description := "Пандемия гриппа, вызванная новым штаммом H1N1. Поразила более 10% населения планеты.";
     region := "Весь мир";
     severity := high |};
  {| id := "10";
     name := "Эбола";
     year := 2014;
     period := "2014-2016 гг.";
     deaths := "11,323";
     affected := "28,616";
     description := "Крупнейшая вспышка лихорадки Эбола в истории. Высокая летальность до 50%.";
     region := "Западная Африка";
     severity := high |};
  {| id := "11";
     name := "COVID-19";
     year := 2019;
     period := "2019-настоящее время";
     deaths := "7+ млн";
     affected := "770+ млн";
     description := "Пандемия коронавирусной инфекции, вызвавшая глобальный кризис здравоохранения и экономики.";
     region := "Весь мир";
     severity := critical |}
].

(** Two records of the array, named for the examples: smallpox (id
    ["3"], century 16) and the Spanish flu (id ["5"], century 20). *)
Definition record_at (i : nat) : Disease :=
  nth i diseases
    {| id := ""; name := ""; year := 0; period := ""; deaths := ""; affected := "";
       description := ""; region := ""; severity := moderate |}.

Definition smallpox : Disease := Eval vm_compute in record_at 2.

Definition spanish_flu : Disease := Eval vm_compute in record_at 4.

(** * Facts about the dataset *)

(** The ids, used as React keys of the cards, are pairwise distinct. *)
Theorem diseases_ids_unique : NoDup (id <$> diseases).
Proof. vm_compute. repeat constructor; set_solver. Qed.

(** Every year is positive and below 3000, the range in which the
    number primitives of [JsNumber] are exact. *)
Lemma diseases_years_bounded :
  Forall (fun d => 0 < year d < 3000) diseases.
Proof. repeat constructor; simpl; lia. Qed.

