(* ===== verification/Filter.v ===== *)
(** The derived lists of [Index.tsx]: [getCentury] (lines 176-178),
    [filteredDiseases] (lines 180-182) and [centuries] (line 184).  They
    are defined for any array [diseases] (the component reads the module
    constant), and [centuries] for any implementation of
    [Array.prototype.sort()]. *)

From S2P Require Import Prelude JsNumber JsArray Diseases.

Local Open Scope Z_scope.
Local Open Scope string_scope.
Local Open Scope page_scope.

(** * Definitions *)

(** [getCentury = (year) => Math.ceil(year / 100)]. *)
Definition getCentury (year : Z) : Z := math_ceil_div year 100.

Section Derived.
Context (diseases : list Disease).

(** [filterCentury === "all" ? diseases
      : diseases.filter(d => getCentury(d.year).toString() === filterCentury)] *)
Definition filteredDiseases (filterCentury : string) : list Disease :=
  if filterCentury === "all" then diseases
  else filter (fun d => number_toString (getCentury (year d)) = filterCentury)
         diseases.

(** [Array.from(new Set(diseases.map(d => getCentury(d.year)))).sort()] *)
Definition centuries `{!ArraySort} : list Z :=
  array_sort (set_from ((fun d => getCentury (year d)) <$> diseases)).
End Derived.

(** * Centuries of years *)

(** [getCentury y] is the ceiling of [y / 100]: the least [c] with
    [y <= 100 c]. *)
Lemma getCentury_spec (y : Z) :
  100 * (getCentury y - 1) < y <= 100 * getCentury y.
Proof.
  split; [apply math_ceil_div_lower | apply math_ceil_div_upper]; lia.
Qed.

Lemma getCentury_unique (y c : Z) :
  100 * (c - 1) < y <= 100 * c -> getCentury y = c.
Proof. apply math_ceil_div_unique. lia. Qed.

(** C23: [getCentury y] is the century of the year [y] in the calendar
    sense: it is [c] exactly when [y] lies in [100 (c - 1) + 1 .. 100 c]. *)
Theorem getCentury_iff (y c : Z) :
  getCentury y = c <-> 100 * (c - 1) < y <= 100 * c.
Proof. split; [intros <-; apply getCentury_spec|apply getCentury_unique]. Qed.

(** C24: for every year of [-100000 .. 100000], the ceiling of JavaScript's
    floating-point quotient [year / 100] (a rounded binary64 division) is
    [getCentury year]: rounding never carries the quotient across an
    integer, so the exact model of [Math.ceil(year / 100)] is the page's. *)
Theorem getCentury_ieee (y : Z) :
  -100000 <= y <= 100000 -> math_ceil_is (js_div y 100) (getCentury y) = true.
Proof.
  intros Hy.
  apply (forallZ_spec (fun y => math_ceil_is (js_div y 100) (getCentury y)) (-100000) 200001);
    [vm_compute; reflexivity|lia].
Qed.

Lemma getCentury_ieee_witness :
  (-100000 <= 1347 <= 100000) /\ math_ceil_is (js_div 1347 100) (getCentury 1347) = true.
Proof. split; [lia|apply getCentury_ieee; lia]. Defined.

Example getCentury_examples :
  getCentury 1347 = 14 /\ getCentury 2019 = 21 /\ getCentury 100 = 1 /\
  getCentury 541 = 6 /\ getCentury 0 = 0 /\ getCentury (-50) = 0.
Proof. repeat split; apply getCentury_unique; lia. Qed.

(** * The filtered list *)

Section Filtering.
Context (diseases : list Disease).

(** The string filter of a century button is the numeric century
    filter of the spec: comparing printed centuries compares centuries. *)
Lemma filteredDiseases_century (c : Z) :
  filteredDiseases diseases (number_toString c) =
  filter (fun d => getCentury (year d) = c) diseases.
Proof.
  unfold filteredDiseases. rewrite bool_decide_false by apply number_toString_not_all.
  apply list_filter_iff. intros d. split; [apply number_toString_inj|by intros ->].
Qed.

Lemma filteredDiseases_all : filteredDiseases diseases "all" = diseases.
Proof. unfold filteredDiseases. by rewrite bool_decide_true. Qed.

(** The filtered list keeps the order of the array. *)
Lemma filteredDiseases_sublist (fc : string) :
  sublist (filteredDiseases diseases fc) diseases.
Proof.
  unfold filteredDiseases. case_bool_decide; [done|]. apply sublist_filter.
Qed.

(** C22: a filter string that is neither ["all"] nor a printed integer
    (["06"], say) selects nothing. *)
Theorem filteredDiseases_unprinted (fc : string) :
  fc <> "all" -> (forall c, fc <> number_toString c) ->
  filteredDiseases diseases fc = [].
Proof.
  intros Hall Hnum. unfold filteredDiseases. rewrite bool_decide_false by done.
  apply filter_none. intros d _ Heq. by eapply Hnum.
Qed.
End Filtering.

(** ["06"] is no printed integer: printing drops leading zeros. *)
Lemma filteredDiseases_unprinted_witness :
  ("06" <> "all" /\ (forall c, "06" <> number_toString c)) /\
  filteredDiseases diseases "06" = [].
Proof.
  assert (H06 : forall c, "06" <> number_toString c).
  { intros c Hc. pose proof (number_toString_roundtrip c) as R.
    rewrite <- Hc in R. vm_compute in R. injection R as <-. discriminate Hc. }
  split; [split; [discriminate | exact H06]|].
  apply filteredDiseases_unprinted; [discriminate | exact H06].
Defined.

(** * The century buttons *)

Section Centuries.
Context `{!ArraySort} (diseases : list Disease).

Lemma elem_of_centuries (c : Z) :
  c ∈ centuries diseases <-> exists d, d ∈ diseases /\ getCentury (year d) = c.
Proof.
  unfold centuries. rewrite array_sort_permutation.
  rewrite (proj2 (set_from_spec _)), list_elem_of_fmap. naive_solver.
Qed.

Lemma centuries_NoDup : NoDup (centuries diseases).
Proof. unfold centuries. rewrite array_sort_permutation. apply set_from_spec. Qed.

Lemma centuries_sorted : StronglySorted sort_le (centuries diseases).
Proof. apply Sorted_StronglySorted; [apply sort_le_trans|apply array_sort_sorted]. Qed.

(** C16: the buttons list each century of the array exactly once, in the
    order of [SortCompare], i.e. of the printed strings. *)
Theorem centuries_spec :
  NoDup (centuries diseases) /\
  (forall c, c ∈ centuries diseases <-> exists d, d ∈ diseases /\ getCentury (year d) = c) /\
  Sorted sort_le (centuries diseases).
Proof.
  split_and!; [apply centuries_NoDup|apply elem_of_centuries|apply array_sort_sorted].
Qed.

(** When all centuries have the same number [k + 1] of digits, the
    buttons are in ascending numeric order. *)
Lemma centuries_ascending_same_digits (k : Z) :
  0 <= k -> (forall d, d ∈ diseases -> 10 ^ k <= getCentury (year d) < 10 ^ (k + 1)) ->
  StronglySorted Z.lt (centuries diseases).
Proof.
  intros Hk Hc.
  apply (StronglySorted_impl sort_le); [|apply centuries_NoDup|apply centuries_sorted].
  intros a b Ha Hb Hne Hle.
  apply elem_of_centuries in Ha as (da & Hda & <-).
  apply elem_of_centuries in Hb as (db & Hdb & <-).
  apply (sort_compare_same_digits _ _ k Hk (Hc _ Hda) (Hc _ Hdb)).
  by apply sort_compare_lt.
Qed.
End Centuries.

(** The spec's tests of [visibleRecords], run on the code: under
    ["all"] the eleven records in their listed order; under the filter the
    6th-century button sets, exactly the record with id "1" (year 541). *)
Example filteredDiseases_dataset :
  id <$> filteredDiseases diseases "all" =
    ["1"; "2"; "3"; "4"; "5"; "6"; "7"; "8"; "9"; "10"; "11"] /\
  filteredDiseases diseases (number_toString 6) = [record_at 0] /\
  id (record_at 0) = "1" /\ year (record_at 0) = 541.
Proof. split_and!; vm_compute; reflexivity. Qed.

(** C1: on the page's dataset the buttons read 14, 16, 19, 20, 21 and then
    6, whatever the engine's sort algorithm: [sort()] without a comparator
    sorts the printed strings, and ["6"] is greater than ["21"].  The spec
    says the centuries are sorted ascending; they are not. *)
Theorem centuries_dataset `{!ArraySort} :
  centuries diseases = [14; 16; 19; 20; 21; 6] /\
  ~ Sorted Z.le (centuries diseases).
Proof.
  assert (Hc : centuries diseases = [14; 16; 19; 20; 21; 6]).
  { apply array_sort_characterised.
    - repeat constructor; unfold sort_le; vm_compute; congruence.
    - vm_compute. apply Permutation_sym.
      exact (Permutation_cons_append [14; 16; 19; 20; 21] 6). }
  split; [done|]. rewrite Hc. intros Hs.
  apply Sorted_StronglySorted in Hs; [|intros ???; lia].
  apply StronglySorted_inv in Hs as [_ Hall].
  rewrite Forall_forall in Hall.
  assert (14 <= 6) by (apply Hall; set_solver). lia.
Qed.


(** C19: the order of the buttons between centuries of different
    lengths: a century [b] of [k + 1] digits comes before a century [a] of
    fewer, [j + 1], digits exactly when the first [j + 1] digits of [b]
    are below [a]; so the 14th century comes before the 6th and the 60th
    after it. *)
Theorem centuries_digit_order `{!ArraySort} (diseases : list Disease) (a b j k : Z) :
  a ∈ centuries diseases -> b ∈ centuries diseases -> 0 <= j < k ->
  10 ^ j <= a < 10 ^ (j + 1) -> 10 ^ k <= b < 10 ^ (k + 1) ->
  (precedes (centuries diseases) b a <-> b / 10 ^ (k - j) < a).
Proof.
  intros Ha Hb Hjk Haj Hbk.
  assert (b <> a) by (intros ->; pose proof (Z.pow_le_mono_r 10 (j + 1) k); lia).
  rewrite (precedes_sorted sort_le) by (done || apply centuries_sorted).
  rewrite <- (sort_compare_fewer_digits a b j k) by lia. unfold sort_le.
  split; [|lia]. intros Hle. by apply sort_compare_lt.
Qed.

Lemma centuries_digit_order_witness :
  (6 ∈ centuries (H := insertion_array_sort) diseases /\
   14 ∈ centuries (H := insertion_array_sort) diseases /\ 0 <= 0 < 1 /\
   10 ^ 0 <= 6 < 10 ^ (0 + 1) /\ 10 ^ 1 <= 14 < 10 ^ (1 + 1)) /\
  (precedes (centuries (H := insertion_array_sort) diseases) 14 6 <-> 14 / 10 ^ (1 - 0) < 6).
Proof.
  assert (H6 : 6 ∈ centuries (H := insertion_array_sort) diseases) by elem_of_literal.
  assert (H14 : 14 ∈ centuries (H := insertion_array_sort) diseases) by elem_of_literal.
  split; [split_and!; (done || simpl; lia)|].
  apply centuries_digit_order; (done || simpl; lia).
Defined.
