(* ===== verification/Badge.v ===== *)
(** The severity presentation of [Index.tsx]: [getSeverityColor]
    (lines 150-161) and [getSeverityLabel] (lines 163-174), two [switch]es
    on a string with a default branch, and the counts of the statistics
    panel, [diseases.filter((d) => d.severity === tag).length] (lines 367,
    382 and 397). *)

From S2P Require Import Prelude Diseases.

Local Open Scope string_scope.
Local Open Scope page_scope.

(** * Definitions *)

(** [switch (severity)]: each [case] compares with [===]. *)
Definition getSeverityColor (severity : string) : string :=
  if severity === "critical" then "bg-red-500/20 text-red-400 border-red-500/50"
  else if severity === "high" then "bg-orange-500/20 text-orange-400 border-orange-500/50"
  else if severity === "moderate" then "bg-yellow-500/20 text-yellow-400 border-yellow-500/50"
  else "bg-gray-500/20 text-gray-400 border-gray-500/50".

Definition getSeverityLabel (severity : string) : string :=
  if severity === "critical" then "Критический"
  else if severity === "high" then "Высокий"
  else if severity === "moderate" then "Умеренный"
  else "Неизвестно".

(** The number of records whose severity is the string [tag]. *)
Definition severityCount (diseases : list Disease) (tag : string) : nat :=
  length (filter (fun d => severity_tag (severity d) = tag) diseases).

(** The three figures of the statistics panel, in its order. *)
Record SeverityStats := {
  stats_critical : nat;
  stats_high : nat;
  stats_moderate : nat
}.

Definition severityStats (diseases : list Disease) : SeverityStats :=
  {| stats_critical := severityCount diseases "critical";
     stats_high := severityCount diseases "high";
     stats_moderate := severityCount diseases "moderate" |}.

(** * Labels and colours *)

(** The strings no member of the union is. *)
Definition unknown_severity (s : string) : Prop :=
  s <> "critical" /\ s <> "high" /\ s <> "moderate".

(** C28: on a string outside the union both switches take their default
    branch: grey, "Неизвестно". *)
Theorem severity_default (s : string) :
  unknown_severity s ->
  getSeverityColor s = "bg-gray-500/20 text-gray-400 border-gray-500/50" /\
  getSeverityLabel s = "Неизвестно".
Proof.
  intros (H1 & H2 & H3). unfold getSeverityColor, getSeverityLabel.
  by rewrite !bool_decide_false.
Qed.

Lemma severity_default_witness :
  unknown_severity "low" /\
  getSeverityColor "low" = "bg-gray-500/20 text-gray-400 border-gray-500/50" /\
  getSeverityLabel "low" = "Неизвестно".
Proof.
  assert (H : unknown_severity "low") by (repeat split; discriminate).
  split; [exact H | apply severity_default, H].
Defined.

(** C29: a record's severity never reaches the default branch, and the
    three labels (and colours) tell the three severities apart. *)
Theorem severity_label_faithful (s s' : Severity) :
  getSeverityLabel (severity_tag s) <> "Неизвестно" /\
  getSeverityColor (severity_tag s) <> "bg-gray-500/20 text-gray-400 border-gray-500/50" /\
  (getSeverityLabel (severity_tag s) = getSeverityLabel (severity_tag s') -> s = s') /\
  (getSeverityColor (severity_tag s) = getSeverityColor (severity_tag s') -> s = s').
Proof. destruct s, s'; vm_compute; split_and!; congruence. Qed.

(** * Counts *)

Lemma severityCount_cons (d : Disease) (l : list Disease) (tag : string) :
  severityCount (d :: l) tag =
  (if decide (severity_tag (severity d) = tag) then 1 else 0) + severityCount l tag.
Proof. unfold severityCount. rewrite filter_cons. by case_decide. Qed.

(** Every record is counted in exactly one panel: the three counts
    sum to the length of the array. *)
Theorem severityStats_total (diseases : list Disease) :
  stats_critical (severityStats diseases) + stats_high (severityStats diseases)
  + stats_moderate (severityStats diseases) = length diseases.
Proof.
  simpl. induction diseases as [|d l IH]; [done|].
  rewrite !severityCount_cons. simpl length.
  destruct (severity d); simpl; rewrite ?decide_True, ?decide_False by done; lia.
Qed.

(** On the page's dataset the panel shows 6 critical, 4 high and 1
    moderate pandemics; the spec says 5 critical, 4 high and 1 moderate,
    summing to 11, which does not add up. *)
Example severityStats_dataset :
  severityStats diseases =
  {| stats_critical := 6; stats_high := 4; stats_moderate := 1 |}.
Proof. vm_compute. reflexivity. Qed.
