(* ===== verification/Selection.v ===== *)
(** The selection of [Index.tsx]: the state [selectedDisease : Disease |
    null] (line 146), the test [selectedDisease?.id === disease.id] that
    highlights a card, expands its description and turns its chevron
    (lines 262, 325, 340), and the card's [onClick] (lines 270-274), which
    stores [null] when the clicked card is the selected one and the
    clicked record otherwise.  The state holds a whole record but is only
    ever compared by id: [same_selection] is that coarser equality, and
    the handlers respect it. *)

From S2P Require Import Prelude Diseases.

Local Open Scope page_scope.

(** * Definitions *)

(** [selectedDisease?.id === disease.id]: with no selection the left side
    is [undefined], which is [===] to no string. *)
Definition isSelected (selectedDisease : option Disease) (disease : Disease) : bool :=
  match selectedDisease with
  | Some s => id s === id disease
  | None => false
  end.

(** [setSelectedDisease(selectedDisease?.id === disease.id ? null : disease)] *)
Definition toggleSelection (selectedDisease : option Disease) (disease : Disease)
  : option Disease :=
  if isSelected selectedDisease disease then None else Some disease.

(** Two selections are the same for the page when both are [null] or both
    hold records with the same id. *)
Definition same_selection : relation (option Disease) :=
  option_Forall2 (fun a b => id a = id b).

(** * The selection up to ids *)

#[export] Instance same_selection_equiv : Equivalence same_selection.
Proof.
  unfold same_selection. split.
  - intros [a|]; by constructor.
  - intros ?? []; by constructor.
  - intros ??? [] Hyz; inversion Hyz; constructor; congruence.
Qed.

#[export] Instance isSelected_proper :
  Proper (same_selection ==> eq ==> eq) isSelected.
Proof. intros ?? [a b Hab|] d ? <-; simpl; [by rewrite Hab|done]. Qed.

#[export] Instance toggleSelection_proper :
  Proper (same_selection ==> eq ==> eq) toggleSelection.
Proof. intros s s' Hs d ? <-. unfold toggleSelection. by rewrite Hs. Qed.

Lemma isSelected_Some (d d' : Disease) : isSelected (Some d) d' = true <-> id d = id d'.
Proof. simpl. apply bool_decide_eq_true. Qed.

Lemma isSelected_self (d : Disease) : isSelected (Some d) d = true.
Proof. by apply isSelected_Some. Qed.

Lemma toggle_selected (s : option Disease) (d : Disease) :
  isSelected s d = true -> toggleSelection s d = None.
Proof. unfold toggleSelection. by intros ->. Qed.

Lemma toggle_unselected (s : option Disease) (d : Disease) :
  isSelected s d = false -> toggleSelection s d = Some d.
Proof. unfold toggleSelection. by intros ->. Qed.

#[export] Hint Resolve isSelected_self toggle_selected toggle_unselected : page.

(** * The toggle *)

(** C12: clicking the same card twice gives back the selection it started
    from, up to ids, exactly when that selection was [null] or that card;
    from another card's selection it clears the selection.  The spec's
    "idempotence" holds only in the first two cases. *)
Theorem toggle_twice (s : option Disease) (d : Disease) :
  toggleSelection (toggleSelection s d) d = (if isSelected s d then Some d else None) /\
  (same_selection (toggleSelection (toggleSelection s d) d) s <->
   s = None \/ isSelected s d = true).
Proof.
  destruct (isSelected s d) eqn:E.
  - rewrite (toggle_selected _ _ E), (toggle_unselected None d eq_refl).
    split; [done|]. destruct s as [s|]; [|discriminate].
    apply isSelected_Some in E. split; [auto|]. intros _. constructor. congruence.
  - rewrite (toggle_unselected _ _ E), (toggle_selected _ _ (isSelected_self d)).
    split; [done|]. destruct s as [s|]; split.
    + unfold same_selection. intros H. inversion H.
    + intros [H|H]; [discriminate|congruence].
    + intros _. by left.
    + intros _. constructor.
Qed.

(** C13: the selection is exclusive: clicking a card with another id
    replaces whatever was selected. *)
Lemma toggle_other (s : option Disease) (d d' : Disease) :
  id d <> id d' -> toggleSelection (toggleSelection s d) d' = Some d'.
Proof.
  intros Hne. unfold toggleSelection at 1.
  destruct (isSelected (toggleSelection s d) d') eqn:E; [|done].
  exfalso. unfold toggleSelection in E.
  destruct (isSelected s d); [discriminate|]. by apply isSelected_Some in E.
Qed.

(** The spec's example: selecting record "3" then record "5" leaves "5". *)
Lemma toggle_other_witness :
  id smallpox <> id spanish_flu /\
  toggleSelection (toggleSelection None smallpox) spanish_flu = Some spanish_flu.
Proof.
  assert (H : id smallpox <> id spanish_flu) by discriminate.
  split; [exact H | apply toggle_other, H].
Defined.
