(* ===== verification/Page.v ===== *)
(** The component [Index] of [Index.tsx] (lines 145-415): its two
    [useState] cells, the state updates its handlers perform, the view it
    renders (QR-code dialog, filter buttons, cards, statistics panel), and
    the interaction "the user clicks a rendered control" as a step relation
    with reachability from the first render: its exact invariant, the
    safety of each render, and liveness (any record, and the first
    render's state, within two clicks).

    A handler is a closure over the state of the render that created it:
    [render] stores in each control the [Action] (the setter call) its
    [onClick] performs, computed from that render's state, and [dispatch]
    applies it.  [window.location.href] is the input [href]. *)

From S2P Require Import Prelude JsNumber JsArray Diseases Filter Badge Selection.
From Stdlib Require Import PrimFloat.

Local Open Scope string_scope.
Local Open Scope page_scope.

(** * State and actions *)

(** [const [selectedDisease, ...] = useState<Disease | null>(null)] and
    [const [filterCentury, ...] = useState<string>("all")]. *)
Record IndexState := {
  selectedDisease : option Disease;
  filterCentury : string
}.

Definition initialState : IndexState :=
  {| selectedDisease := None; filterCentury := "all" |}.

(** The two setters, the only writes to the state. *)
Inductive Action :=
| SetSelectedDisease (v : option Disease)
| SetFilterCentury (v : string).

Definition dispatch (s : IndexState) (a : Action) : IndexState :=
  match a with
  | SetSelectedDisease v => {| selectedDisease := v; filterCentury := filterCentury s |}
  | SetFilterCentury v => {| selectedDisease := selectedDisease s; filterCentury := v |}
  end.

(** * The rendered view *)

(** A filter button: its React key (the "all" button has none), its text,
    whether it has the highlighted class [bg-primary], and its handler. *)
Record FilterButton := {
  button_key : option Z;
  button_label : string;
  button_active : bool;
  button_onClick : Action
}.

(** The "all" button, lines 232-241. *)
Definition allButton (filterCentury : string) : FilterButton :=
  {| button_key := None;
     button_label := "Все века";
     button_active := filterCentury === "all";
     button_onClick := SetFilterCentury "all" |}.

(** One century button, lines 243-253: [{century} век]. *)
Definition centuryButton (filterCentury : string) (century : Z) : FilterButton :=
  {| button_key := Some century;
     button_label := number_toString century ++ " век";
     button_active := filterCentury === number_toString century;
     button_onClick := SetFilterCentury (number_toString century) |}.

(** A card, lines 259-346: the description paragraph is rendered only for
    the selected record. *)
Record CardView := {
  card_key : string;
  card_index : nat;
  card_highlighted : bool;
  card_title : string;
  card_subtitle : string;
  card_badge_class : string;
  card_badge_label : string;
  card_deaths : string;
  card_affected : string;
  card_description : option string;
  card_year : Z;
  card_chevron : string;
  card_animation_delay : float;
  card_animation : string;
  card_onClick : Action
}.

(** [filteredDiseases.map((disease, index) => <Card ...>)]; [index] only
    sets the animation delay. *)
(** [index * 0.1], the card's [animationDelay] in seconds: a binary64
    product (the template literal then prints it with an ["s"]). *)
Definition animationDelay (index : Z) : float := PrimFloat.mul (float_of_Z index) js_tenth.

Definition renderCard (selectedDisease : option Disease) (index : nat) (disease : Disease)
  : CardView :=
  let selected := isSelected selectedDisease disease in
  {| card_key := id disease;
     card_index := index;
     card_highlighted := selected;
     card_title := name disease;
     card_subtitle := period disease ++ " • " ++ region disease;
     card_badge_class := getSeverityColor (severity_tag (severity disease));
     card_badge_label := getSeverityLabel (severity_tag (severity disease));
     card_deaths := deaths disease;
     card_affected := affected disease;
     card_description := if selected then Some (description disease) else None;
     card_year := year disease;
     card_chevron := if selected then "ChevronUp" else "ChevronDown";
     card_animation_delay := animationDelay (Z.of_nat index);
     card_animation := "fade-in 0.5s ease-out forwards";
     card_onClick := SetSelectedDisease (toggleSelection selectedDisease disease) |}.

(** A panel of the statistics card, lines 359-402: its heading and its
    count over the whole array. *)
Record StatPanel := {
  panel_heading : string;
  panel_count : nat;
  panel_caption : string
}.

Definition statPanels (diseases : list Disease) : list StatPanel :=
  [ {| panel_heading := "Критический"; panel_count := severityCount diseases "critical";
       panel_caption := "эпидемий с катастрофическими последствиями" |};
    {| panel_heading := "Высокий"; panel_count := severityCount diseases "high";
       panel_caption := "эпидемий со значительным воздействием" |};
    {| panel_heading := "Умеренный"; panel_count := severityCount diseases "moderate";
       panel_caption := "эпидемий с контролируемым распространением" |} ].

(** The title of the statistics card. *)
Definition statsTitle : string := "Статистика по тяжести".

(** The page's header: its [h1] and the paragraph under it. *)
Definition headerTitle : string := "История Эпидемий".

Definition headerSubtitle : string :=
  "Хроника самых разрушительных болезней в истории человечества — от древних времён до наших дней".

(** The footer's paragraph. *)
Definition footerText : string :=
  "Данные собраны из исторических источников и медицинских исследований".

(** The QR dialog, lines 199-228: the trigger's text, the dialog's title
    and description, the props given to [QRCodeSVG], and the URL printed
    under it.  Whether the dialog is open is the [Dialog] component's own
    state (Radix UI), not the page's. *)
Record QrDialog := {
  trigger_label : string;
  dialog_title : string;
  dialog_description : string;
  qr_value : string;
  qr_size : Z;
  qr_level : string;
  qr_include_margin : bool;
  qr_fg_color : string;
  qr_caption : string
}.

(** [const currentUrl = window.location.href] feeds both the code and the
    caption. *)
Definition qrDialog (currentUrl : string) : QrDialog :=
  {| trigger_label := "Показать QR-код";
     dialog_title := "QR-код сайта";
     dialog_description := "Отсканируйте этот код для быстрого доступа с мобильного устройства";
     qr_value := currentUrl;
     qr_size := 256%Z;
     qr_level := "H";
     qr_include_margin := true;
     qr_fg_color := "#1A1F2C";
     qr_caption := currentUrl |}.

Record View := {
  page_title : string;
  page_subtitle : string;
  qr_dialog : QrDialog;
  filter_buttons : list FilterButton;
  cards : list CardView;
  stats_title : string;
  stat_panels : list StatPanel;
  footer : string
}.

(** The body of [Index]: one render of the state [s]. *)
Definition render `{!ArraySort} (diseases : list Disease) (href : string) (s : IndexState)
  : View :=
  {| page_title := headerTitle;
     page_subtitle := headerSubtitle;
     qr_dialog := qrDialog href;
     filter_buttons :=
       allButton (filterCentury s) :: (centuryButton (filterCentury s) <$> centuries diseases);
     cards := imap (renderCard (selectedDisease s)) (filteredDiseases diseases (filterCentury s));
     stats_title := statsTitle;
     stat_panels := statPanels diseases;
     footer := footerText |}.

(** A card reads the selection only through [isSelected] and
    [toggleSelection], which compare ids. *)
#[export] Instance renderCard_proper :
  Proper (same_selection ==> eq ==> eq ==> eq) renderCard.
Proof. intros s s' Hs i ? <- d ? <-. unfold renderCard. by rewrite Hs. Qed.

(** * Interaction *)

Section Interaction.
Context `{!ArraySort} (diseases : list Disease) (href : string).

(** One user event: a click on a rendered filter button or card runs the
    setter call its handler closed over. *)
Inductive click : IndexState -> IndexState -> Prop :=
| click_button s b :
    b ∈ filter_buttons (render diseases href s) -> click s (dispatch s (button_onClick b))
| click_card s c :
    c ∈ cards (render diseases href s) -> click s (dispatch s (card_onClick c)).

(** The states a sequence of clicks leads to from the first render. *)
Definition reachable (s : IndexState) : Prop := rtc click initialState s.

(** The filter is ["all"] or a century of a button; the selection is
    [null] or a record of the array. *)
Definition page_inv (s : IndexState) : Prop :=
  (filterCentury s = "all" \/
   exists c, c ∈ centuries diseases /\ filterCentury s = number_toString c) /\
  (selectedDisease s = None \/
   exists d, d ∈ diseases /\ selectedDisease s = Some d).

Lemma elem_of_filter_buttons (s : IndexState) (b : FilterButton) :
  b ∈ filter_buttons (render diseases href s) <->
  b = allButton (filterCentury s) \/
  exists c, c ∈ centuries diseases /\ b = centuryButton (filterCentury s) c.
Proof. simpl. rewrite elem_of_cons, list_elem_of_fmap. naive_solver. Qed.

Lemma elem_of_filteredDiseases (fc : string) (d : Disease) :
  d ∈ filteredDiseases diseases fc -> d ∈ diseases.
Proof. intros Hd. eapply elem_of_sublist; [exact Hd|apply filteredDiseases_sublist]. Qed.

#[local] Hint Resolve elem_of_filteredDiseases : page.

Lemma elem_of_cards (s : IndexState) (c : CardView) :
  c ∈ cards (render diseases href s) ->
  exists i d, d ∈ filteredDiseases diseases (filterCentury s) /\
              c = renderCard (selectedDisease s) i d.
Proof.
  simpl. rewrite elem_of_lookup_imap. intros (i & d & -> & Hd).
  exists i, d. split; [|done]. by eapply list_elem_of_lookup_2.
Qed.

Lemma click_page_inv (s s' : IndexState) :
  page_inv s -> click s s' -> page_inv s'.
Proof.
  intros [Hf Hsel] Hclick. destruct Hclick as [s b Hb|s c Hc].
  - apply elem_of_filter_buttons in Hb as [->|(c & Hc & ->)]; split; simpl; eauto.
  - apply elem_of_cards in Hc as (i & d & Hd & ->). split; [done|]. simpl.
    unfold toggleSelection. destruct (isSelected _ _); [by left|].
    right. eauto with page.
Qed.

Lemma reachable_page_inv (s : IndexState) : reachable s -> page_inv s.
Proof.
  apply rtc_invariant; [apply click_page_inv|]. split; [by left|by left].
Qed.

Lemma click_all (s : IndexState) : click s (dispatch s (SetFilterCentury "all")).
Proof.
  apply (click_button s (allButton (filterCentury s))), elem_of_filter_buttons. by left.
Qed.

Lemma click_visible_card (s : IndexState) (d : Disease) :
  d ∈ filteredDiseases diseases (filterCentury s) ->
  click s (dispatch s (SetSelectedDisease (toggleSelection (selectedDisease s) d))).
Proof.
  intros [i Hi]%list_elem_of_lookup.
  apply (click_card s (renderCard (selectedDisease s) i d)).
  by apply (elem_of_lookup_imap_2 (renderCard (selectedDisease s))).
Qed.

Lemma reachable_set_century (s : IndexState) (c : Z) :
  reachable s -> c ∈ centuries diseases ->
  reachable (dispatch s (SetFilterCentury (number_toString c))).
Proof.
  intros Hr Hc. eapply rtc_r; [exact Hr|].
  apply (click_button s (centuryButton (filterCentury s) c)), elem_of_filter_buttons.
  right. eauto.
Qed.

(** Every state of the invariant is reached: select its record under
    "all", then click its century's button. *)
Lemma page_inv_reachable (s : IndexState) : page_inv s -> reachable s.
Proof.
  destruct s as [sel fc]. intros [[Hall|(c & Hc & Hfc)] Hsel]; simpl in *; subst fc;
    [|apply reachable_set_century with (s := {| selectedDisease := sel; filterCentury := "all" |}); [|done]];
    (destruct Hsel as [->|(e & He & ->)]; [apply rtc_refl|apply rtc_once]);
    change {| selectedDisease := Some e; filterCentury := "all" |}
      with (dispatch initialState (SetSelectedDisease (toggleSelection None e)));
    apply click_visible_card; by rewrite filteredDiseases_all.
Qed.

(** C6: the invariant is exact: a state is reachable from the first render
    if and only if its filter is ["all"] or the printed century of a
    button and its selection is [null] or a record of the array. *)
Theorem reachable_iff_page_inv (s : IndexState) : reachable s <-> page_inv s.
Proof. split; [apply reachable_page_inv|apply page_inv_reachable]. Qed.


(** The cards are keyed by the ids of the filtered records, in order. *)
Lemma card_keys_render (s : IndexState) :
  card_key <$> cards (render diseases href s) =
  id <$> filteredDiseases diseases (filterCentury s).
Proof. simpl. rewrite fmap_imap, <- imap_const. by apply imap_ext. Qed.

Lemma filteredDiseases_ids_NoDup (fc : string) :
  NoDup (id <$> diseases) -> NoDup (id <$> filteredDiseases diseases fc).
Proof.
  intros Hnd. eapply sublist_NoDup; [exact Hnd|].
  apply fmap_sublist, filteredDiseases_sublist.
Qed.

(** C10: with distinct ids in the array, the React keys of the rendered
    cards are distinct, in every state. *)
Theorem card_keys_unique (s : IndexState) :
  NoDup (id <$> diseases) -> NoDup (card_key <$> cards (render diseases href s)).
Proof. intros Hnd. rewrite card_keys_render. by apply filteredDiseases_ids_NoDup. Qed.

Lemma card_expanded (sel : option Disease) (i : nat) (d : Disease) :
  is_Some (card_description (renderCard sel i d)) <-> isSelected sel d = true.
Proof. simpl. destruct (isSelected sel d); split; (done || by intros []). Qed.

(** C9: with distinct ids, at most one card shows its description, in
    every state. *)
Theorem at_most_one_expanded (s : IndexState) :
  NoDup (id <$> diseases) ->
  length (filter (fun c => is_Some (card_description c)) (cards (render diseases href s))) <= 1.
Proof.
  intros Hnd. apply (length_filter_le1 card_key);
    [rewrite card_keys_render; by apply filteredDiseases_ids_NoDup|].
  intros x y (i & d & _ & ->)%elem_of_cards (j & e & _ & ->)%elem_of_cards.
  rewrite !card_expanded. destruct (selectedDisease s) as [t|]; [|done].
  rewrite !isSelected_Some. simpl. congruence.
Qed.

(** C8: in a reachable state, with distinct ids, the card of a visible
    record shows its description exactly when that record is the one
    selected. *)
Theorem expanded_iff_selected (s : IndexState) (i : nat) (d : Disease) :
  reachable s -> NoDup (id <$> diseases) ->
  d ∈ filteredDiseases diseases (filterCentury s) ->
  (is_Some (card_description (renderCard (selectedDisease s) i d)) <->
   selectedDisease s = Some d).
Proof.
  intros Hr Hnd Hd. rewrite card_expanded.
  destruct (reachable_page_inv s Hr) as [_ [Hsel|(e & He & Hsel)]]; rewrite Hsel.
  - split; [done|discriminate].
  - rewrite isSelected_Some. split; [|congruence]. intros Hid. f_equal.
    eapply NoDup_fmap_inj; eauto with page.
Qed.

(** C7: in a reachable state exactly one filter button is highlighted. *)
Theorem one_active_button (s : IndexState) :
  reachable s ->
  length (filter (fun b => button_active b = true) (filter_buttons (render diseases href s))) = 1.
Proof.
  intros Hr.
  change (filter_buttons (render diseases href s)) with
    (allButton (filterCentury s) :: (centuryButton (filterCentury s) <$> centuries diseases)).
  rewrite filter_cons, filter_fmap_comm.
  destruct (reachable_page_inv s Hr) as [[Hall|(c0 & Hc0 & Hfc)] _]; rewrite ?Hall, ?Hfc.
  - rewrite decide_True by (by apply bool_decide_eq_true). simpl.
    rewrite length_fmap, filter_none; [done|]. intros c _.
    rewrite bool_decide_eq_true. apply not_eq_sym, number_toString_not_all.
  - rewrite decide_False
      by (simpl; rewrite bool_decide_eq_true; apply number_toString_not_all).
    rewrite length_fmap, <- (length_filter_eq_NoDup (centuries diseases) c0)
      by (done || apply centuries_NoDup).
    f_equal. apply list_filter_iff. intros c. simpl. rewrite bool_decide_eq_true.
    split; [by intros ->%number_toString_inj|by intros ->].
Qed.

(** C11: in a reachable state the page lists at least one card, when the
    array is not empty: every filter value a button sets matches a
    record. *)
Theorem reachable_cards_nonempty (s : IndexState) :
  reachable s -> diseases <> [] -> cards (render diseases href s) <> [].
Proof.
  intros Hr Hne Hnil. simpl in Hnil.
  apply (f_equal length) in Hnil. rewrite length_imap in Hnil.
  apply length_zero_iff_nil in Hnil. revert Hnil.
  destruct (reachable_page_inv s Hr) as [[Hall|(c & Hc & ->)] _].
  - by rewrite Hall, filteredDiseases_all.
  - rewrite filteredDiseases_century.
    apply elem_of_centuries in Hc as (d & Hd & Hdc).
    intros Hnil. by eapply filter_nil_not_elem_of; [exact Hnil| |exact Hd].
Qed.

(** C14: the selection survives filter changes.  With distinct ids, in a
    reachable state where [d] is selected, clicking the button of another
    century hides [d] and leaves no card expanded, but [d] stays
    selected: clicking "all" then shows [d]'s card expanded again.  The
    spec leaves this interplay unstated. *)
Theorem selection_survives_filter (s : IndexState) (d : Disease) (c : Z) :
  reachable s -> NoDup (id <$> diseases) ->
  selectedDisease s = Some d -> c ∈ centuries diseases -> getCentury (year d) <> c ->
  let s1 := dispatch s (SetFilterCentury (number_toString c)) in
  let s2 := dispatch s1 (SetFilterCentury "all") in
  click s s1 /\ click s1 s2 /\
  Forall (fun card => card_description card = None) (cards (render diseases href s1)) /\
  exists i, renderCard (selectedDisease s2) i d ∈ cards (render diseases href s2) /\
            card_description (renderCard (selectedDisease s2) i d) = Some (description d).
Proof.
  intros Hr Hnd Hsel Hc Hdc s1 s2.
  destruct (reachable_page_inv s Hr) as [_ [Hnone|(e & He & Hse)]]; [congruence|].
  rewrite Hsel in Hse. injection Hse as <-.
  split_and!.
  - apply (click_button s (centuryButton (filterCentury s) c)).
    apply elem_of_filter_buttons. right. eauto.
  - apply (click_button s1 (allButton (filterCentury s1))).
    apply elem_of_filter_buttons. by left.
  - apply Forall_forall. intros card (i & f & Hf & ->)%elem_of_cards.
    simpl in Hf |- *. rewrite Hsel.
    rewrite filteredDiseases_century in Hf. apply list_elem_of_filter in Hf as [Hfc Hf].
    destruct (isSelected (Some d) f) eqn:E; [|done]. exfalso.
    apply isSelected_Some in E. apply Hdc. rewrite <- Hfc. f_equal. f_equal.
    eapply NoDup_fmap_inj; eauto.
  - apply list_elem_of_lookup in He as [i Hi]. exists i. simpl. rewrite Hsel.
    rewrite filteredDiseases_all, isSelected_self. split; [|done].
    by apply (elem_of_lookup_imap_2 (renderCard (Some d))).
Qed.

(** * Buttons and cards are well formed *)

(** C25: the handler of a century button sets a filter string that reads
    back as the button's key, is its label before " век", and is the
    filter that highlights it. *)
Theorem centuryButton_roundtrip (s : IndexState) (b : FilterButton) (c : Z) :
  b ∈ filter_buttons (render diseases href s) -> button_key b = Some c ->
  c ∈ centuries diseases /\
  exists v, button_onClick b = SetFilterCentury v /\ parse_int v = Some c /\
            button_label b = v ++ " век" /\ (button_active b = true <-> filterCentury s = v).
Proof.
  intros [->|(c' & Hc' & ->)]%elem_of_filter_buttons Hkey; [discriminate|].
  injection Hkey as <-. split; [done|].
  exists (number_toString c'). split_and!; [done|apply number_toString_roundtrip|done|].
  apply bool_decide_eq_true.
Qed.

(** C26: the React keys of the filter buttons are distinct: the "all"
    button has none, the others their century. *)
Theorem button_keys_unique (s : IndexState) :
  NoDup (button_key <$> filter_buttons (render diseases href s)).
Proof.
  simpl. rewrite <- list_fmap_compose. constructor.
  - rewrite list_elem_of_fmap. intros (c & Hc & _). discriminate.
  - apply NoDup_fmap_2; [intros ?? [=]; done|apply centuries_NoDup].
Qed.

(** C20: every rendered card is well formed: its badge shows one of the
    three severity labels with a non-default colour, it is highlighted
    exactly when it shows its description, and its chevron points up
    exactly then. *)
Theorem render_cards_well_formed (s : IndexState) (c : CardView) :
  c ∈ cards (render diseases href s) ->
  card_badge_label c ∈ ["Критический"; "Высокий"; "Умеренный"] /\
  card_badge_class c <> "bg-gray-500/20 text-gray-400 border-gray-500/50" /\
  (card_highlighted c = true <-> is_Some (card_description c)) /\
  card_chevron c = (if card_highlighted c then "ChevronUp" else "ChevronDown").
Proof.
  intros (i & d & _ & ->)%elem_of_cards. simpl.
  split_and!.
  - destruct (severity d); simpl; set_solver.
  - destruct (severity d); simpl; discriminate.
  - destruct (isSelected _ _); split; (done || by intros []).
  - by destruct (isSelected _ _).
Qed.

(** * Liveness *)

(** C18: from every reachable state the first render's state is at most two
    clicks away: "all", then the selected card if there is one. *)
Theorem back_to_initial (s : IndexState) :
  reachable s -> exists n, (n <= 2)%nat /\ nsteps click n s initialState.
Proof.
  intros Hr. destruct (reachable_page_inv s Hr) as [_ [Hsel|(e & He & Hsel)]].
  - exists 1%nat. split; [lia|]. apply nsteps_once.
    replace initialState with (dispatch s (SetFilterCentury "all"))
      by (destruct s; simpl in *; by subst). apply click_all.
  - exists 2%nat. split; [lia|].
    eapply nsteps_l; [apply click_all|]. apply nsteps_once.
    set (s1 := dispatch s (SetFilterCentury "all")).
    replace initialState
      with (dispatch s1 (SetSelectedDisease (toggleSelection (selectedDisease s1) e))).
    + apply click_visible_card. by rewrite filteredDiseases_all.
    + simpl. rewrite Hsel, toggle_selected by apply isSelected_self. done.
Qed.

(** C17: with distinct ids, from every reachable state any record of the
    array can be selected, and its card shown expanded under the "all"
    filter, in at most two clicks. *)
Theorem select_reachable (s : IndexState) (d : Disease) :
  reachable s -> NoDup (id <$> diseases) -> d ∈ diseases ->
  exists n s', (n <= 2)%nat /\ nsteps click n s s' /\
               selectedDisease s' = Some d /\ filterCentury s' = "all".
Proof.
  intros Hr Hnd Hd. set (s1 := dispatch s (SetFilterCentury "all")).
  destruct (isSelected (selectedDisease s) d) eqn:E.
  - exists 1%nat, s1. split_and!; [lia|apply nsteps_once, click_all| |done].
    destruct (reachable_page_inv s Hr) as [_ [Hsel|(e & He & Hsel)]];
      rewrite Hsel in E; [discriminate|].
    apply isSelected_Some in E. subst s1. simpl. rewrite Hsel. f_equal.
    eapply NoDup_fmap_inj; eauto.
  - exists 2%nat, (dispatch s1 (SetSelectedDisease (toggleSelection (selectedDisease s1) d))).
    split_and!; [lia| |by apply toggle_unselected|done].
    eapply nsteps_l; [apply click_all|]. apply nsteps_once.
    apply click_visible_card. by rewrite filteredDiseases_all.
Qed.
(** * The selection up to ids *)

(** C15: the page depends on the selected record only through its id: two
    states whose selections are both null or have the same id, and whose
    filters agree, render the same view, handlers included. *)
Theorem render_same_selection (s s' : IndexState) :
  same_selection (selectedDisease s) (selectedDisease s') ->
  filterCentury s = filterCentury s' ->
  render diseases href s = render diseases href s'.
Proof.
  intros Hsel Hfc. unfold render. rewrite Hfc. f_equal.
  apply imap_ext. intros i d _. by rewrite Hsel.
Qed.

End Interaction.

(** * The cards' animation *)

(** C21: the cards fade in in their order: for every index below 100000 the
    [animationDelay] of the next card, [(index + 1) * 0.1] computed in
    binary64, is strictly later than this card's, whatever the records
    and the selection. *)
Theorem card_delays_increasing (sel sel' : option Disease) (i : nat) (d d' : Disease) :
  (Z.of_nat i < 100000)%Z ->
  PrimFloat.ltb (card_animation_delay (renderCard sel i d))
                (card_animation_delay (renderCard sel' (S i) d')) = true.
Proof.
  intros Hi. cbn [card_animation_delay renderCard]. rewrite Nat2Z.inj_succ.
  apply (forallZ_spec (fun z => PrimFloat.ltb (animationDelay z) (animationDelay (Z.succ z)))
           0 100000); [vm_compute; reflexivity|lia].
Qed.

(** * Witnesses on the page's dataset *)

(** The state after clicking the "20 век" button on the first render. *)
Lemma reachable_century_20 :
  reachable (H := insertion_array_sort) diseases "" (dispatch initialState (SetFilterCentury "20")).
Proof.
  apply rtc_once.
  change (SetFilterCentury "20") with (button_onClick (centuryButton "all" 20)).
  apply click_button. elem_of_literal.
Qed.

Definition state_20 : IndexState := dispatch initialState (SetFilterCentury "20").

(** Then clicking the Spanish flu card, first of the filtered list. *)
Definition state_20_flu : IndexState := dispatch state_20 (SetSelectedDisease (Some spanish_flu)).

Lemma reachable_20_flu :
  reachable (H := insertion_array_sort) diseases "" state_20_flu.
Proof.
  apply (rtc_r _ state_20); [apply reachable_century_20|].
  unfold state_20_flu. change (SetSelectedDisease (Some spanish_flu))
    with (card_onClick (renderCard (selectedDisease state_20) 0 spanish_flu)).
  apply click_card. elem_of_literal.
Qed.

Lemma card_keys_unique_witness :
  NoDup (id <$> diseases) /\
  NoDup (card_key <$> cards (render (H := insertion_array_sort) diseases "" state_20)).
Proof.
  split; [apply diseases_ids_unique|].
  apply card_keys_unique, diseases_ids_unique.
Defined.

Lemma at_most_one_expanded_witness :
  NoDup (id <$> diseases) /\
  length (filter (fun c => is_Some (card_description c))
            (cards (render (H := insertion_array_sort) diseases "" state_20_flu))) <= 1.
Proof.
  split; [apply diseases_ids_unique|].
  apply at_most_one_expanded, diseases_ids_unique.
Defined.

Lemma expanded_iff_selected_witness :
  (reachable (H := insertion_array_sort) diseases "" state_20_flu /\
   NoDup (id <$> diseases) /\
   spanish_flu ∈ filteredDiseases diseases (filterCentury state_20_flu)) /\
  (is_Some (card_description (renderCard (selectedDisease state_20_flu) 0 spanish_flu)) <->
   selectedDisease state_20_flu = Some spanish_flu).
Proof.
  assert (Hin : spanish_flu ∈ filteredDiseases diseases (filterCentury state_20_flu))
    by elem_of_literal.
  split; [split_and!; [apply reachable_20_flu|apply diseases_ids_unique|exact Hin]|].
  apply (expanded_iff_selected diseases ""); [apply reachable_20_flu|apply diseases_ids_unique|exact Hin].
Defined.

Lemma one_active_button_witness :
  reachable (H := insertion_array_sort) diseases "" state_20_flu /\
  length (filter (fun b => button_active b = true)
            (filter_buttons (render (H := insertion_array_sort) diseases "" state_20_flu))) = 1.
Proof.
  split; [apply reachable_20_flu|].
  apply (one_active_button diseases ""), reachable_20_flu.
Defined.

Lemma reachable_cards_nonempty_witness :
  (reachable (H := insertion_array_sort) diseases "" state_20_flu /\ diseases <> []) /\
  cards (render (H := insertion_array_sort) diseases "" state_20_flu) <> [].
Proof.
  split; [split; [apply reachable_20_flu|discriminate]|].
  apply (reachable_cards_nonempty diseases ""); [apply reachable_20_flu|discriminate].
Defined.

(** * The statistics panel *)

(** C27: the panel's headings are the badge labels of the three severities,
    and its counts, taken over the whole array in every state, sum to the
    length of the array. *)
Theorem stat_panels_spec `{!ArraySort} (diseases : list Disease) (href : string)
    (s : IndexState) :
  panel_heading <$> stat_panels (render diseases href s) =
    (fun sv => getSeverityLabel (severity_tag sv)) <$> [critical; high; moderate] /\
  sum_list (panel_count <$> stat_panels (render diseases href s)) = length diseases.
Proof.
  split; [reflexivity|].
  pose proof (severityStats_total diseases) as Htot. simpl in *. lia.
Qed.

Lemma selection_survives_filter_witness :
  (reachable (H := insertion_array_sort) diseases "" state_20_flu /\
   NoDup (id <$> diseases) /\
   selectedDisease state_20_flu = Some spanish_flu /\
   14%Z ∈ centuries (H := insertion_array_sort) diseases /\
   getCentury (year spanish_flu) <> 14%Z) /\
  (let s1 := dispatch state_20_flu (SetFilterCentury (number_toString 14)) in
   let s2 := dispatch s1 (SetFilterCentury "all") in
   click (H := insertion_array_sort) diseases "" state_20_flu s1 /\
   click (H := insertion_array_sort) diseases "" s1 s2 /\
   Forall (fun card => card_description card = None)
     (cards (render (H := insertion_array_sort) diseases "" s1)) /\
   exists i, renderCard (selectedDisease s2) i spanish_flu
               ∈ cards (render (H := insertion_array_sort) diseases "" s2) /\
             card_description (renderCard (selectedDisease s2) i spanish_flu) =
               Some (description spanish_flu)).
Proof.
  assert (H14 : 14%Z ∈ centuries (H := insertion_array_sort) diseases) by elem_of_literal.
  assert (Hc : getCentury (year spanish_flu) <> 14%Z) by (vm_compute; discriminate).
  split; [split_and!; [apply reachable_20_flu|apply diseases_ids_unique|done|done|done]|].
  apply (selection_survives_filter diseases "");
    [apply reachable_20_flu|apply diseases_ids_unique|done|done|done].
Defined.

Lemma centuryButton_roundtrip_witness :
  (centuryButton (filterCentury state_20) 20 ∈
     filter_buttons (render (H := insertion_array_sort) diseases "" state_20) /\
   button_key (centuryButton (filterCentury state_20) 20) = Some 20%Z) /\
  (20%Z ∈ centuries (H := insertion_array_sort) diseases /\
   exists v, button_onClick (centuryButton (filterCentury state_20) 20) = SetFilterCentury v /\
     parse_int v = Some 20%Z /\
     button_label (centuryButton (filterCentury state_20) 20) = v ++ " век" /\
     (button_active (centuryButton (filterCentury state_20) 20) = true <->
      filterCentury state_20 = v)).
Proof.
  assert (Hb : centuryButton (filterCentury state_20) 20 ∈
     filter_buttons (render (H := insertion_array_sort) diseases "" state_20)) by elem_of_literal.
  split; [split; [exact Hb|reflexivity]|].
  apply (centuryButton_roundtrip diseases "" state_20 _ 20 Hb). reflexivity.
Defined.

Lemma render_cards_well_formed_witness :
  renderCard (selectedDisease state_20_flu) 0 spanish_flu ∈
    cards (render (H := insertion_array_sort) diseases "" state_20_flu) /\
  (card_badge_label (renderCard (selectedDisease state_20_flu) 0 spanish_flu)
     ∈ ["Критический"; "Высокий"; "Умеренный"] /\
   card_badge_class (renderCard (selectedDisease state_20_flu) 0 spanish_flu)
     <> "bg-gray-500/20 text-gray-400 border-gray-500/50" /\
   (card_highlighted (renderCard (selectedDisease state_20_flu) 0 spanish_flu) = true <->
    is_Some (card_description (renderCard (selectedDisease state_20_flu) 0 spanish_flu))) /\
   card_chevron (renderCard (selectedDisease state_20_flu) 0 spanish_flu) =
     (if card_highlighted (renderCard (selectedDisease state_20_flu) 0 spanish_flu)
      then "ChevronUp" else "ChevronDown")).
Proof.
  assert (Hc : renderCard (selectedDisease state_20_flu) 0 spanish_flu ∈
    cards (render (H := insertion_array_sort) diseases "" state_20_flu)) by elem_of_literal.
  split; [exact Hc|]. apply (render_cards_well_formed diseases "" state_20_flu _ Hc).
Defined.

Lemma back_to_initial_witness :
  reachable (H := insertion_array_sort) diseases "" state_20_flu /\
  exists n, (n <= 2)%nat /\
    nsteps (click (H := insertion_array_sort) diseases "") n state_20_flu initialState.
Proof.
  split; [apply reachable_20_flu|].
  apply (back_to_initial diseases ""), reachable_20_flu.
Defined.

Lemma select_reachable_witness :
  (reachable (H := insertion_array_sort) diseases "" state_20_flu /\
   NoDup (id <$> diseases) /\ smallpox ∈ diseases) /\
  exists n s', (n <= 2)%nat /\
    nsteps (click (H := insertion_array_sort) diseases "") n state_20_flu s' /\
    selectedDisease s' = Some smallpox /\ filterCentury s' = "all".
Proof.
  assert (Hd : smallpox ∈ diseases) by elem_of_literal.
  split; [split_and!; [apply reachable_20_flu|apply diseases_ids_unique|exact Hd]|].
  apply (select_reachable diseases ""); [apply reachable_20_flu|apply diseases_ids_unique|exact Hd].
Defined.

Lemma render_same_selection_witness :
  let flu' := {| id := id spanish_flu; name := ""; year := 0; period := ""; deaths := "";
                 affected := ""; description := ""; region := ""; severity := moderate |} in
  let s' := {| selectedDisease := Some flu'; filterCentury := filterCentury state_20_flu |} in
  (same_selection (selectedDisease state_20_flu) (selectedDisease s') /\
   filterCentury state_20_flu = filterCentury s') /\
  render (H := insertion_array_sort) diseases "" state_20_flu =
  render (H := insertion_array_sort) diseases "" s'.
Proof.
  intros flu' s'.
  assert (Hsel : same_selection (selectedDisease state_20_flu) (selectedDisease s'))
    by (constructor; reflexivity).
  split; [split; [exact Hsel|reflexivity]|].
  apply (render_same_selection diseases ""); [exact Hsel|reflexivity].
Defined.

Lemma card_delays_increasing_witness :
  (Z.of_nat 3 < 100000)%Z /\
  PrimFloat.ltb (card_animation_delay (renderCard None 3 smallpox))
                (card_animation_delay (renderCard (Some smallpox) 4 spanish_flu)) = true.
Proof. split; [lia|apply card_delays_increasing; lia]. Defined.
