(* ===== verification/Spec.v ===== *)
(** The abstract contract of the page, as the spec states it for the
    component "PandemicBrowser" (spec section 4.1): an optional selected
    record id and an active filter that is "all" or a century number;
    [selectRecord] toggles the id, [setFilter] replaces the filter;
    [visibleRecords] filters by numeric century; [distinctCenturies] is
    sorted ascending.  The contract's steps are labelled by the operation
    performed ([SpecOp]); the page's clicks are labelled by the operation
    the clicked control stands for ([click_op]: a card selects its key, a
    filter button sets the filter to its key).  The partial abstraction
    [abs] reads a page state as a contract state; it is undefined on a
    filter string that is neither ["all"] nor the printed form of a
    century.  The refinement theorems: every labelled click performs its
    operation on the abstract state, every enabled operation is performed
    by a click, the reachable states correspond, and what is rendered is
    what the contract shows, except the order of the century buttons. *)

From S2P Require Import Prelude JsNumber JsArray Diseases Filter Badge Selection Page.

Local Open Scope string_scope.
Local Open Scope page_scope.

(** * The contract *)

Record BrowserState := {
  selectedId : option string;
  activeFilter : option Z    (* [None] is "all" *)
}.

Definition spec_init : BrowserState := {| selectedId := None; activeFilter := None |}.

Definition spec_selectRecord (i : string) (st : BrowserState) : BrowserState :=
  {| selectedId := if decide (selectedId st = Some i) then None else Some i;
     activeFilter := activeFilter st |}.

Definition spec_setFilter (v : option Z) (st : BrowserState) : BrowserState :=
  {| selectedId := selectedId st; activeFilter := v |}.

Definition spec_visibleRecords (diseases : list Disease) (st : BrowserState) : list Disease :=
  match activeFilter st with
  | None => diseases
  | Some c => filter (fun d => getCentury (year d) = c) diseases
  end.

(** The distinct centuries, ascending. *)
Definition spec_distinctCenturies (diseases : list Disease) : list Z :=
  merge_sort Z.le (set_from ((fun d => getCentury (year d)) <$> diseases)).

(** The operations of the contract: [selectRecord(id)] and
    [setFilter(value)], [None] standing for "all". *)
Inductive SpecOp :=
| OpSelect (i : string)
| OpFilter (v : option Z).

(** The operations the controls offer, labelled: select a visible record,
    or set the filter to "all" or to one of the distinct centuries. *)
Inductive spec_step (diseases : list Disease) : BrowserState -> SpecOp -> BrowserState -> Prop :=
| spec_select st d :
    d ∈ spec_visibleRecords diseases st ->
    spec_step diseases st (OpSelect (id d)) (spec_selectRecord (id d) st)
| spec_filter_all st : spec_step diseases st (OpFilter None) (spec_setFilter None st)
| spec_filter_century st c :
    c ∈ spec_distinctCenturies diseases ->
    spec_step diseases st (OpFilter (Some c)) (spec_setFilter (Some c) st).

(** The contract states reached from the initial one by any operations. *)
Definition spec_reachable (diseases : list Disease) : BrowserState -> Prop :=
  rtc (fun st st' => exists op, spec_step diseases st op st') spec_init.

(** * The abstraction *)

(** The filter string read as the contract's filter: ["all"], or a
    century whose printed form is exactly the string.  Any other string
    (["All"], ["06"], ...) has no abstract counterpart. *)
Definition abs_filter (fc : string) : option (option Z) :=
  if fc === "all" then Some None
  else match parse_int fc with
       | Some c => if number_toString c === fc then Some (Some c) else None
       | None => None
       end.

(** The selected record's id and the abstract filter, when there is one. *)
Definition abs (s : IndexState) : option BrowserState :=
  (fun f => {| selectedId := id <$> selectedDisease s; activeFilter := f |})
    <$> abs_filter (filterCentury s).

Lemma abs_filter_century (c : Z) : abs_filter (number_toString c) = Some (Some c).
Proof.
  unfold abs_filter. rewrite bool_decide_false by apply number_toString_not_all.
  by rewrite number_toString_roundtrip, bool_decide_true.
Qed.

Lemma abs_Some (s : IndexState) (st : BrowserState) :
  abs s = Some st ->
  selectedId st = id <$> selectedDisease s /\ abs_filter (filterCentury s) = Some (activeFilter st).
Proof. unfold abs. destruct (abs_filter _); intros [= <-]; done. Qed.

Lemma abs_dispatch_select (s : IndexState) (st : BrowserState) (v : option Disease) :
  abs s = Some st ->
  abs (dispatch s (SetSelectedDisease v)) =
  Some {| selectedId := id <$> v; activeFilter := activeFilter st |}.
Proof. unfold abs. simpl. destruct (abs_filter _); intros [= <-]; done. Qed.

Lemma abs_dispatch_filter (s : IndexState) (st : BrowserState) (fc : string) (f : option Z) :
  abs s = Some st -> abs_filter fc = Some f ->
  abs (dispatch s (SetFilterCentury fc)) = Some (spec_setFilter f st).
Proof.
  intros (Hsel & _)%abs_Some Hf. unfold abs, spec_setFilter. simpl. by rewrite Hf, Hsel.
Qed.

Lemma elem_of_spec_distinctCenturies (diseases : list Disease) (c : Z) :
  c ∈ spec_distinctCenturies diseases <->
  exists d, d ∈ diseases /\ getCentury (year d) = c.
Proof.
  unfold spec_distinctCenturies. rewrite merge_sort_Permutation.
  rewrite (proj2 (set_from_spec _)), list_elem_of_fmap. naive_solver.
Qed.

Section Refinement.
Context `{!ArraySort} (diseases : list Disease) (href : string).

(** A click labelled by the contract operation its control stands for: a
    card by [selectRecord] of its key, a filter button by [setFilter] of
    its key ([null] for "all"). *)
Inductive click_op (s : IndexState) : SpecOp -> IndexState -> Prop :=
| click_op_button b :
    b ∈ filter_buttons (render diseases href s) ->
    click_op s (OpFilter (button_key b)) (dispatch s (button_onClick b))
| click_op_card c :
    c ∈ cards (render diseases href s) ->
    click_op s (OpSelect (card_key c)) (dispatch s (card_onClick c)).

Lemma click_click_op (s s' : IndexState) :
  click diseases href s s' <-> exists op, click_op s op s'.
Proof.
  split; [intros [s0 b Hb|s0 c Hc]; eexists; by constructor|].
  intros (op & [b Hb|c Hc]); by constructor.
Qed.

Lemma abs_page_inv (s : IndexState) : page_inv diseases s -> exists st, abs s = Some st.
Proof.
  intros [[Hall|(c & _ & Hc)] _]; unfold abs;
    rewrite ?Hall, ?Hc, ?abs_filter_century; by eexists.
Qed.

(** Under the invariant, the filtered list is the contract's visible list. *)
Lemma filteredDiseases_abs (s : IndexState) (st : BrowserState) :
  page_inv diseases s -> abs s = Some st ->
  filteredDiseases diseases (filterCentury s) = spec_visibleRecords diseases st.
Proof.
  intros [[Hall|(c & _ & Hc)] _] (_ & Hf)%abs_Some; unfold spec_visibleRecords;
    rewrite ?Hall, ?Hc, ?abs_filter_century in Hf; injection Hf as <-.
  - by rewrite Hall, filteredDiseases_all.
  - rewrite Hc. apply filteredDiseases_century.
Qed.

Lemma centuries_spec_elem (c : Z) :
  c ∈ centuries diseases <-> c ∈ spec_distinctCenturies diseases.
Proof. by rewrite elem_of_centuries, elem_of_spec_distinctCenturies. Qed.

(** A card's click performs [selectRecord] of its key, which is enabled. *)
Lemma card_click_refines (s : IndexState) (st : BrowserState) (c : CardView) :
  page_inv diseases s -> abs s = Some st -> c ∈ cards (render diseases href s) ->
  spec_step diseases st (OpSelect (card_key c)) (spec_selectRecord (card_key c) st) /\
  abs (dispatch s (card_onClick c)) = Some (spec_selectRecord (card_key c) st).
Proof.
  intros Hinv Habs (i & d & Hd & ->)%elem_of_cards. cbn [card_onClick card_key renderCard].
  split; [apply spec_select; by rewrite <- (filteredDiseases_abs s st)|].
  rewrite (abs_dispatch_select s st) by done. f_equal.
  destruct (abs_Some s st Habs) as [Hsel _]. unfold spec_selectRecord, toggleSelection.
  rewrite Hsel. f_equal. destruct (selectedDisease s) as [e|]; simpl; [|done].
  case_bool_decide; rewrite ?decide_True, ?decide_False by congruence; done.
Qed.

(** A filter button's click performs [setFilter] of its key, which is
    enabled. *)
Lemma button_click_refines (s : IndexState) (st : BrowserState) (b : FilterButton) :
  abs s = Some st -> b ∈ filter_buttons (render diseases href s) ->
  spec_step diseases st (OpFilter (button_key b)) (spec_setFilter (button_key b) st) /\
  abs (dispatch s (button_onClick b)) = Some (spec_setFilter (button_key b) st).
Proof.
  intros Habs [->|(c & Hc & ->)]%elem_of_filter_buttons;
    cbn [button_onClick button_key allButton centuryButton]; split.
  - apply spec_filter_all.
  - by apply (abs_dispatch_filter s st).
  - by apply spec_filter_century, centuries_spec_elem.
  - apply (abs_dispatch_filter s st); [done|apply abs_filter_century].
Qed.

(** Every enabled operation has a control standing for it. *)
Lemma spec_step_control (s : IndexState) (st st' : BrowserState) (op : SpecOp) :
  page_inv diseases s -> abs s = Some st -> spec_step diseases st op st' ->
  (exists c, c ∈ cards (render diseases href s) /\ op = OpSelect (card_key c) /\
             st' = spec_selectRecord (card_key c) st) \/
  (exists b, b ∈ filter_buttons (render diseases href s) /\ op = OpFilter (button_key b) /\
             st' = spec_setFilter (button_key b) st).
Proof.
  intros Hinv Habs Hstep. destruct Hstep as [st0 d Hd|st0|st0 c Hc].
  - left. rewrite <- (filteredDiseases_abs s st0) in Hd by done.
    apply list_elem_of_lookup in Hd as [i Hi].
    exists (renderCard (selectedDisease s) i d). split; [|done].
    by apply (elem_of_lookup_imap_2 (renderCard (selectedDisease s))).
  - right. exists (allButton (filterCentury s)).
    split; [apply elem_of_filter_buttons; by left|done].
  - right. exists (centuryButton (filterCentury s) c). split; [|done].
    apply elem_of_filter_buttons. right. exists c. by rewrite centuries_spec_elem.
Qed.

(** C3: forward simulation, labelled: from a state satisfying the
    invariant, the click of a card performs [selectRecord] of its key and
    the click of a filter button [setFilter] of its key, both enabled in
    the abstract state, and the new state has an abstraction. *)
Theorem click_refines (s s' : IndexState) (st : BrowserState) (op : SpecOp) :
  page_inv diseases s -> abs s = Some st -> click_op s op s' ->
  exists st', spec_step diseases st op st' /\ abs s' = Some st'.
Proof.
  intros Hinv Habs [b Hb|c Hc]; eexists;
    [apply button_click_refines|apply card_click_refines]; done.
Qed.

(** C4: backward simulation, labelled: every operation the contract
    enables in the abstract state of an invariant state is performed by
    clicking the control that stands for it, and the result is the
    contract's new state. *)
Theorem spec_step_implemented (s : IndexState) (st st' : BrowserState) (op : SpecOp) :
  page_inv diseases s -> abs s = Some st -> spec_step diseases st op st' ->
  exists s', click_op s op s' /\ abs s' = Some st'.
Proof.
  intros Hinv Habs Hstep.
  destruct (spec_step_control s st st' op) as [(c & Hc & -> & ->)|(b & Hb & -> & ->)];
    [done..| |]; eexists; (split; [by constructor|]);
    [apply (card_click_refines s st c)|apply (button_click_refines s st b)]; done.
Qed.

(** C2: what a render shows in an invariant state is what the contract
    shows: the state has an abstraction, the cards are the visible records
    in order, a card is expanded exactly when its key is the selected id,
    and the buttons offer the distinct centuries (in another order, see
    [centuries_dataset]). *)
Theorem render_refines (s : IndexState) :
  page_inv diseases s ->
  exists st, abs s = Some st /\
  card_key <$> cards (render diseases href s) = id <$> spec_visibleRecords diseases st /\
  (forall c, c ∈ cards (render diseases href s) ->
     is_Some (card_description c) <-> selectedId st = Some (card_key c)) /\
  centuries diseases ≡ₚ spec_distinctCenturies diseases.
Proof.
  intros Hinv. destruct (abs_page_inv s Hinv) as [st Habs].
  exists st. split_and!; [done| | |].
  - by rewrite card_keys_render, (filteredDiseases_abs s st).
  - intros c (i & d & _ & ->)%elem_of_cards. rewrite card_expanded.
    destruct (abs_Some s st Habs) as [-> _]. simpl.
    destruct (selectedDisease s) as [e|]; simpl; [|done].
    rewrite bool_decide_eq_true. split; [by intros ->|congruence].
  - unfold centuries, spec_distinctCenturies.
    by rewrite array_sort_permutation, merge_sort_Permutation.
Qed.

(** The two simulation diagrams, unlabelled, with the invariant. *)
Lemma click_forward (s s' : IndexState) (st : BrowserState) :
  click diseases href s s' -> page_inv diseases s /\ abs s = Some st ->
  exists st', (exists op, spec_step diseases st op st') /\
              page_inv diseases s' /\ abs s' = Some st'.
Proof.
  intros Hc [Hinv Habs]. pose proof (click_page_inv diseases href s s' Hinv Hc) as Hinv'.
  apply click_click_op in Hc as (op & Hop). inversion Hop as [b Hb|c Hc]; subst.
  - destruct (button_click_refines s st b) as [Hs Ha]; [done..|].
    eexists; split_and!; [eexists; exact Hs|done|exact Ha].
  - destruct (card_click_refines s st c) as [Hs Ha]; [done..|].
    eexists; split_and!; [eexists; exact Hs|done|exact Ha].
Qed.

Lemma spec_backward (st st' : BrowserState) (s : IndexState) :
  (exists op, spec_step diseases st op st') -> page_inv diseases s /\ abs s = Some st ->
  exists s', click diseases href s s' /\ page_inv diseases s' /\ abs s' = Some st'.
Proof.
  intros (op & Hstep) [Hinv Habs].
  destruct (spec_step_control s st st' op) as [(c & Hc & _ & ->)|(b & Hb & _ & ->)];
    [done..| |].
  - exists (dispatch s (card_onClick c)).
    assert (Hcl : click diseases href s (dispatch s (card_onClick c))) by by constructor.
    split_and!; [done|by eapply click_page_inv|by apply card_click_refines].
  - exists (dispatch s (button_onClick b)).
    assert (Hcl : click diseases href s (dispatch s (button_onClick b))) by by constructor.
    split_and!; [done|by eapply click_page_inv|by apply button_click_refines].
Qed.

(** C5: the reachable states correspond: every state the page reaches by
    clicks has an abstraction, reached by the contract's operations, and
    every state the contract reaches is the abstraction of a state the
    page reaches. *)
Theorem reachable_abstract_states :
  (forall s, reachable diseases href s ->
     exists st, abs s = Some st /\ spec_reachable diseases st) /\
  (forall st, spec_reachable diseases st ->
     exists s, reachable diseases href s /\ abs s = Some st).
Proof.
  assert (Hinit : page_inv diseases initialState /\ abs initialState = Some spec_init).
  { split; [apply (reachable_page_inv diseases href), rtc_refl|reflexivity]. }
  split.
  - intros s Hr.
    destruct (simulation_rtc _ _ _ click_forward initialState s spec_init Hr Hinit)
      as (st & Hst & _ & Habs).
    by exists st.
  - intros st Hst.
    destruct (simulation_rtc _ _ (fun st s => page_inv diseases s /\ abs s = Some st)
                spec_backward spec_init st initialState Hst Hinit) as (s & Hs & _ & Habs).
    by exists s.
Qed.
End Refinement.

(** When all centuries of the array have the same number of digits (years
    901..9900 give two-digit centuries), the century buttons are exactly
    the contract's ascending [distinctCenturies]; the page's dataset, whose
    year 541 gives the one-digit 6th century, is not such an array
    ([centuries_dataset]). *)
Lemma centuries_vs_spec `{!ArraySort} (diseases : list Disease) (k : Z) :
  (0 <= k)%Z ->
  (forall d, d ∈ diseases -> (10 ^ k <= getCentury (year d) < 10 ^ (k + 1))%Z) ->
  centuries diseases = spec_distinctCenturies diseases.
Proof.
  intros Hk Hy. apply (Sorted_unique Z.le).
  - apply StronglySorted_Sorted.
    apply (StronglySorted_impl Z.lt); [intros; lia|apply centuries_NoDup|].
    by apply (centuries_ascending_same_digits _ k).
  - apply Sorted_merge_sort, _.
  - unfold centuries, spec_distinctCenturies.
    by rewrite array_sort_permutation, merge_sort_Permutation.
Qed.

(** The abstract state of [state_20]: no selection, the 20th century. *)
Definition st_20 : BrowserState := {| selectedId := None; activeFilter := Some 20%Z |}.

Lemma page_inv_state_20 : page_inv (H := insertion_array_sort) diseases state_20.
Proof. apply (reachable_page_inv diseases ""), reachable_century_20. Qed.

Lemma click_refines_witness :
  (page_inv (H := insertion_array_sort) diseases state_20 /\ abs state_20 = Some st_20 /\
   click_op (H := insertion_array_sort) diseases "" state_20 (OpSelect "5") state_20_flu) /\
  exists st', spec_step diseases st_20 (OpSelect "5") st' /\ abs state_20_flu = Some st'.
Proof.
  assert (Habs : abs state_20 = Some st_20) by reflexivity.
  assert (Hc : click_op (H := insertion_array_sort) diseases "" state_20 (OpSelect "5")
                 state_20_flu).
  { change (OpSelect "5") with (OpSelect (card_key (renderCard None 0 spanish_flu))).
    unfold state_20_flu. change (SetSelectedDisease (Some spanish_flu))
      with (card_onClick (renderCard (selectedDisease state_20) 0 spanish_flu)).
    apply click_op_card. elem_of_literal. }
  split; [split_and!; [apply page_inv_state_20|exact Habs|exact Hc]|].
  apply (click_refines diseases "" state_20 state_20_flu st_20 _ page_inv_state_20 Habs Hc).
Defined.

Lemma spec_step_implemented_witness :
  (page_inv (H := insertion_array_sort) diseases state_20 /\ abs state_20 = Some st_20 /\
   spec_step diseases st_20 (OpFilter None) (spec_setFilter None st_20)) /\
  exists s', click_op (H := insertion_array_sort) diseases "" state_20 (OpFilter None) s' /\
             abs s' = Some (spec_setFilter None st_20).
Proof.
  assert (Habs : abs state_20 = Some st_20) by reflexivity.
  assert (Hs : spec_step diseases st_20 (OpFilter None) (spec_setFilter None st_20))
    by apply spec_filter_all.
  split; [split_and!; [apply page_inv_state_20|exact Habs|exact Hs]|].
  apply (spec_step_implemented diseases "" state_20 st_20 _ _ page_inv_state_20 Habs Hs).
Defined.

Lemma render_refines_witness :
  page_inv (H := insertion_array_sort) diseases state_20_flu /\
  exists st, abs state_20_flu = Some st /\
  card_key <$> cards (render (H := insertion_array_sort) diseases "" state_20_flu) =
    id <$> spec_visibleRecords diseases st /\
  (forall c, c ∈ cards (render (H := insertion_array_sort) diseases "" state_20_flu) ->
     is_Some (card_description c) <-> selectedId st = Some (card_key c)) /\
  centuries (H := insertion_array_sort) diseases ≡ₚ spec_distinctCenturies diseases.
Proof.
  assert (Hinv : page_inv (H := insertion_array_sort) diseases state_20_flu).
  { apply (reachable_page_inv diseases ""), reachable_20_flu. }
  split; [exact Hinv|]. apply (render_refines diseases "" state_20_flu Hinv).
Defined.
